(** * CyberRAG: ingestion of atomic test definitions and the query pipeline

    A shallow embedding of [ingest_atomics.py] and [query_rag.py].

    Both programs are a single [main] that talks to collaborators (the file
    system, the YAML and JSON decoders, the vector store, the language
    model).  The collaborators are fields of an environment record; what
    [main] itself does with their answers is translated line by line.

    Conventions.
    - A Python [str] is a [string]; one [ascii] stands for one character
      (the code points below 256), so [String.length] is Python's [len].
    - A value decoded from YAML or JSON is a [pyval]: [None], [bool], [int],
      [float], [str], [list] and [dict] with [str] keys.  A [dict] keeps its
      insertion order (it is iterated by the ingestion loop), so it is an
      association list.  Tagged YAML values (timestamps, binary, sets) and
      keys that are not strings are outside the model.
    - A raised exception is a value of [exn]; [except Exception] catches the
      classes for which [is_Exception] holds.
    - The interpreter is part of the environment where the scripts depend
      on it ([Py.version]). *)

From Stdlib Require Import ZArith Ascii String List Bool Lia DecimalString.
From Stdlib Require Import Sorting.Sorted Sorting.Permutation.
From stdpp Require Import gmap strings list fin_maps.

Local Open Scope Z_scope.

(** ** Exceptions and results *)

Inductive exn : Type :=
| AttributeError
| TypeError
| KeyError
| JSONDecodeError
| EOFError
| ImportError
| OtherException (what : string)
| KeyboardInterrupt
| SystemExit.

(** [isinstance(e, Exception)]: everything but the two classes that derive
    from [BaseException] directly. *)
Definition is_Exception (e : exn) : bool :=
  match e with
  | KeyboardInterrupt | SystemExit => false
  | _ => true
  end.

Definition is_JSONDecodeError (e : exn) : bool :=
  match e with JSONDecodeError => true | _ => false end.

Definition is_ImportError (e : exn) : bool :=
  match e with ImportError => true | _ => false end.

Inductive result (A : Type) : Type :=
| Ok (a : A)
| Raise (e : exn).
Arguments Ok {A} a.
Arguments Raise {A} e.

Definition rbind {A B} (r : result A) (k : A -> result B) : result B :=
  match r with
  | Ok a => k a
  | Raise e => Raise e
  end.

Declare Scope py_scope.
Delimit Scope py_scope with py.
Notation "x <- c ;; k" := (rbind c (fun x => k))
  (at level 100, c at next level, right associativity) : py_scope.

(** ** Strings *)

Module Str.

Definition nl : string := String "010" "".
Definition dquote : ascii := "034"%char.
Definition squote : ascii := "039"%char.
Definition backslash : ascii := "092"%char.

(** [str.isspace] on the code points below 256. *)
Definition is_space (c : ascii) : bool :=
  let n := N_of_ascii c in
  (((9 <=? n) && (n <=? 13)) || ((28 <=? n) && (n <=? 32))
   || (n =? 133) || (n =? 160))%N.

Fixpoint lstrip (s : string) : string :=
  match s with
  | EmptyString => EmptyString
  | String c s' => if is_space c then lstrip s' else s
  end.

Fixpoint rstrip (s : string) : string :=
  match s with
  | EmptyString => EmptyString
  | String c s' =>
      match rstrip s' with
      | EmptyString => if is_space c then EmptyString else String c EmptyString
      | r => String c r
      end
  end.

(** [s.strip()] *)
Definition strip (s : string) : string := rstrip (lstrip s).

Fixpoint all_space (s : string) : bool :=
  match s with
  | EmptyString => true
  | String c s' => is_space c && all_space s'
  end.

(** [str.lower] on the code points below 256: A-Z and the accented
    capitals 0xC0-0xDE (but the multiplication sign 0xD7) move up by 32. *)
Definition lower_char (c : ascii) : ascii :=
  let n := N_of_ascii c in
  if (((65 <=? n) && (n <=? 90))
      || ((192 <=? n) && (n <=? 222) && negb (n =? 215)))%N
  then ascii_of_N (n + 32) else c.

Fixpoint lower (s : string) : string :=
  match s with
  | EmptyString => EmptyString
  | String c s' => String (lower_char c) (lower s')
  end.

(** [s.startswith(p)] and [s.endswith(p)] *)
Definition startswith (p s : string) : bool := String.prefix p s.

Definition endswith (p s : string) : bool :=
  let n := String.length s in
  let m := String.length p in
  (m <=? n)%nat && String.eqb (String.substring (n - m) m s) p.

(** [needle in hay] for two strings *)
Fixpoint contains (needle hay : string) : bool :=
  String.prefix needle hay ||
  match hay with
  | EmptyString => false
  | String _ hay' => contains needle hay'
  end.

(** [s[:n]] *)
Fixpoint take (n : nat) (s : string) : string :=
  match n, s with
  | S n', String c s' => String c (take n' s')
  | _, _ => EmptyString
  end.

(** [sep.join(parts)] *)
Fixpoint join (sep : string) (parts : list string) : string :=
  match parts with
  | [] => EmptyString
  | [p] => p
  | p :: rest => p +:+ sep +:+ join sep rest
  end.

Fixpoint concat (parts : list string) : string :=
  match parts with
  | [] => EmptyString
  | p :: rest => p +:+ concat rest
  end.

(** the characters of a string, as iteration over a [str] yields them *)
Fixpoint chars (s : string) : list string :=
  match s with
  | EmptyString => []
  | String c s' => String c EmptyString :: chars s'
  end.

Fixpoint mem_char (c : ascii) (s : string) : bool :=
  match s with
  | EmptyString => false
  | String d s' => Ascii.eqb c d || mem_char c s'
  end.

(** [str(n)] for an integer *)
Definition of_Z (z : Z) : string := NilZero.string_of_int (Z.to_int z).
Definition of_nat (n : nat) : string := of_Z (Z.of_nat n).

Definition hex_digit (n : N) : ascii :=
  ascii_of_N (if (n <? 10)%N then 48 + n else 87 + n)%N.

(** [str.isprintable] on the code points below 256 *)
Definition is_printable (c : ascii) : bool :=
  let n := N_of_ascii c in
  negb ((n <? 32) || ((127 <=? n) && (n <=? 160)) || (n =? 173))%N.

Definition repr_char (q c : ascii) : string :=
  let n := N_of_ascii c in
  if Ascii.eqb c backslash then String backslash (String backslash "")
  else if Ascii.eqb c q then String backslash (String q "")
  else if (n =? 9)%N then String backslash "t"
  else if (n =? 10)%N then String backslash "n"
  else if (n =? 13)%N then String backslash "r"
  else if is_printable c then String c ""
  else String backslash
         (String "x" (String (hex_digit (n / 16)) (String (hex_digit (n mod 16)) ""))).

Fixpoint repr_chars (q : ascii) (s : string) : string :=
  match s with
  | EmptyString => EmptyString
  | String c s' => repr_char q c +:+ repr_chars q s'
  end.

(** [repr(s)]: single quotes, unless the text has a single quote and no
    double quote. *)
Definition repr (s : string) : string :=
  let q := if mem_char squote s && negb (mem_char dquote s)
           then dquote else squote in
  String q (repr_chars q s +:+ String q "").

End Str.

(** ** Decoded values *)

#[warnings="-register-all"]
Inductive pyval : Type :=
| PNone
| PBool (b : bool)
| PInt (z : Z)
| PFloat (nonzero : bool) (text : string)
| PStr (s : string)
| PList (l : list pyval)
| PDict (d : list (string * pyval)).

(** A float is kept as what the programs can observe of it: whether it
    differs from zero and the text [repr] gives. *)

Module Py.

(** [bool(v)] *)
Definition truthy (v : pyval) : bool :=
  match v with
  | PNone => false
  | PBool b => b
  | PInt z => negb (z =? 0)
  | PFloat nz _ => nz
  | PStr s => negb (String.eqb s "")
  | PList l => match l with [] => false | _ => true end
  | PDict d => match d with [] => false | _ => true end
  end.

Fixpoint lookup (key : string) (d : list (string * pyval)) : option pyval :=
  match d with
  | [] => None
  | (k, v) :: d' => if String.eqb k key then Some v else lookup key d'
  end.

(** [v.get(key, default)] *)
Definition get (v : pyval) (key : string) (default : pyval) : result pyval :=
  match v with
  | PDict d => Ok (match lookup key d with Some x => x | None => default end)
  | _ => Raise AttributeError
  end.

(** [v[key]] for a string key *)
Definition getitem (v : pyval) (key : string) : result pyval :=
  match v with
  | PDict d => match lookup key d with Some x => Ok x | None => Raise KeyError end
  | _ => Raise TypeError
  end.

Definition is_str (s : string) (v : pyval) : bool :=
  match v with PStr t => String.eqb t s | _ => false end.

(** [key in v] for a string key *)
Definition contains (key : string) (v : pyval) : result bool :=
  match v with
  | PDict d => Ok (match lookup key d with Some _ => true | None => false end)
  | PList l => Ok (existsb (is_str key) l)
  | PStr s => Ok (Str.contains key s)
  | _ => Raise TypeError
  end.

(** the items [for x in v] goes through *)
Definition iter (v : pyval) : result (list pyval) :=
  match v with
  | PList l => Ok l
  | PDict d => Ok (map (fun kv => PStr (fst kv)) d)
  | PStr s => Ok (map PStr (Str.chars s))
  | _ => Raise TypeError
  end.

(** [v.strip()] *)
Definition strip (v : pyval) : result string :=
  match v with
  | PStr s => Ok (Str.strip s)
  | _ => Raise AttributeError
  end.

Fixpoint all_strs (l : list pyval) : result (list string) :=
  match l with
  | [] => Ok []
  | PStr s :: l' =>
      match all_strs l' with
      | Ok ss => Ok (s :: ss)
      | Raise e => Raise e
      end
  | _ :: _ => Raise TypeError
  end.

(** [sep.join(v)] *)
Definition join (sep : string) (v : pyval) : result string :=
  (items <- iter v ;;
   parts <- all_strs items ;;
   Ok (Str.join sep parts))%py.

(** The interpreter that runs the scripts.  One thing in them depends on
    it: a slice is hashable since Python 3.12, so that slicing a mapping
    raises KeyError there (the slice is looked up as a key, which a mapping
    read from YAML or JSON does not have) and TypeError before. *)
Inductive version : Type := Before312 | Since312.

Definition unhashable_slice (python : version) : exn :=
  match python with
  | Before312 => TypeError
  | Since312 => KeyError
  end.

(** [v[:n]] *)
Definition slice_to (python : version) (n : nat) (v : pyval) : result pyval :=
  match v with
  | PStr s => Ok (PStr (Str.take n s))
  | PList l => Ok (PList (firstn n l))
  | PDict _ => Raise (unhashable_slice python)
  | _ => Raise TypeError
  end.

(** [repr(v)] *)
Fixpoint repr (v : pyval) : string :=
  match v with
  | PNone => "None"
  | PBool true => "True"
  | PBool false => "False"
  | PInt z => Str.of_Z z
  | PFloat _ text => text
  | PStr s => Str.repr s
  | PList l => "[" +:+ Str.join ", " (map repr l) +:+ "]"
  | PDict d =>
      "{" +:+ Str.join ", "
                (map (fun kv => let '(k, x) := kv in
                                Str.repr k +:+ ": " +:+ repr x) d)
          +:+ "}"
  end.

(** [str(v)], which is what an f-string field [{v}] inserts *)
Definition str (v : pyval) : string :=
  match v with
  | PStr s => s
  | _ => repr v
  end.

End Py.

(** ** Programs: state and exceptions

    [prog S A] is a piece of Python that runs in a state [S] and either
    returns an [A] or raises; the state it leaves behind survives a raise,
    as the effects of a [try] body do. *)

Definition prog (S A : Type) : Type := S -> result A * S.

Definition ret {S A} (a : A) : prog S A := fun s => (Ok a, s).

Definition bind {S A B} (m : prog S A) (k : A -> prog S B) : prog S B :=
  fun s =>
    match m s with
    | (Ok a, s') => k a s'
    | (Raise e, s') => (Raise e, s')
    end.

Definition lift {S A} (r : result A) : prog S A := fun s => (r, s).

Definition modify {S} (f : S -> S) : prog S unit := fun s => (Ok tt, f s).

Definition gets {S A} (f : S -> A) : prog S A := fun s => (Ok (f s), s).

(** [try: body  except <catches> as e: handler e] *)
Definition try_except {S A} (body : prog S A) (catches : exn -> bool)
    (handler : exn -> prog S A) : prog S A :=
  fun s =>
    match body s with
    | (Raise e, s') => if catches e then handler e s' else (Raise e, s')
    | done => done
    end.

(** [for x in l: body x] *)
Fixpoint for_each {S A} (l : list A) (body : A -> prog S unit) : prog S unit :=
  match l with
  | [] => ret tt
  | x :: l' => bind (body x) (fun _ => for_each l' body)
  end.

Declare Scope prog_scope.
Delimit Scope prog_scope with prog.
Notation "x <- c ;; k" := (bind c (fun x => k))
  (at level 100, c at next level, right associativity) : prog_scope.
Notation "c ;; k" := (bind c (fun _ => k))
  (at level 100, right associativity) : prog_scope.

(** ** The Document *)

Record Document : Type := mkDocument {
  page_content : string;
  metadata : gmap string pyval
}.

(** * Ingestion: [ingest_atomics.py] *)

Module Ingest.

Definition INDEX_NAME : string := "faiss_index".

(** What the ingestion gets from outside. *)
Record Env : Type := {
  (** the interpreter *)
  python : Py.version;
  (** [import faiss]; the value is [faiss.__version__] *)
  import_faiss : result string;
  (** [os.path.join(os.getcwd(), "atomics")] *)
  DATASET_ROOT : string;
  (** [os.walk(DATASET_ROOT)]: each directory with its file names *)
  os_walk : list (string * list string);
  (** [os.path.join] *)
  path_join : string -> string -> string;
  (** [open(path, 'r', encoding='utf-8')] then [yaml.safe_load] *)
  load_yaml : string -> result pyval;
  (** [HuggingFaceEmbeddings(model_name="all-MiniLM-L6-v2")] *)
  embeddings_init : result unit;
  (** [FAISS.from_documents(documents, embeddings)] *)
  from_documents : list Document -> result unit;
  (** [vectorstore.save_local(name)] *)
  save_local : string -> result unit
}.

(** What the ingestion does to the outside, in order: the prints of the
    source (a run of prints of fixed text is one constructor) and the calls
    that have an effect. *)
Inductive event : Type :=
| PrintStarting
| PrintFaissImported (version : string)
| PrintCpuMode
| PrintFaissMissing
| PrintScanning (root : string)
| PrintCollected (count : nat)
| PrintErrorProcessing (file : string) (e : exn)
| PrintTotal (n : nat)
| PrintInitEmbeddings
| PrintBuilding
| CallFromDocuments (docs : list Document)
| PrintSaving (name : string)
| CallSaveLocal (name : string)
| PrintSuccess.

Record state : Type := mkState {
  documents : list Document;
  count : nat;
  log : list event
}.

Definition init : state := mkState [] 0 [].

Definition emit (e : event) : prog state unit :=
  modify (fun s => mkState (documents s) (count s) (log s ++ [e])).

Definition append_document (d : Document) : prog state unit :=
  modify (fun s => mkState (documents s ++ [d]) (count s) (log s)).

Definition incr_count : prog state unit :=
  modify (fun s => mkState (documents s) (S (count s)) (log s)).

(** the 24 blanks that start every line of the f-string template *)
Definition indent : string := "                        ".

(** Lines 65-71: the text that is embedded. *)
Definition compose_content (technique_id technique_name test_name : pyval)
    (platform_str description : string) (command : pyval) : string :=
  Str.nl +:+ indent +:+ "Technique: " +:+ Py.str technique_id +:+ ": "
         +:+ Py.str technique_name +:+
  Str.nl +:+ indent +:+ "Test Name: " +:+ Py.str test_name +:+
  Str.nl +:+ indent +:+ "Platform: " +:+ platform_str +:+
  Str.nl +:+ indent +:+ "Description: " +:+ description +:+
  Str.nl +:+ indent +:+ "Command: " +:+ Py.str command +:+
  Str.nl +:+ indent.

(** Lines 51-86: one atomic test becomes one Document. *)
Definition build_document (python : Py.version)
    (technique_id technique_name : pyval) (file_path : string) (test : pyval)
    : result Document :=
  (test_name <- Py.get test "name" (PStr "Unnamed Test") ;;
   description0 <- Py.get test "description" (PStr "") ;;
   description <- Py.strip description0 ;;
   platforms <- Py.get test "supported_platforms" (PList []) ;;
   platform_str <- (if Py.truthy platforms then Py.join ", " platforms
                    else Ok "unknown") ;;
   executor <- Py.get test "executor" (PDict []) ;;
   command <- Py.get executor "command" (PStr "") ;;
   executor_name <- Py.get executor "name" (PStr "unknown") ;;
   let content :=
     compose_content technique_id technique_name test_name
                     platform_str description command in
   command1000 <- Py.slice_to python 1000 command ;;
   Ok (mkDocument content
         (list_to_map
            [("technique_id", technique_id);
             ("technique_name", technique_name);
             ("test_name", test_name);
             ("platform", PStr platform_str);
             ("executor", executor_name);
             ("command", command1000);
             ("source", PStr file_path)])))%py.

(** Lines 50-91: the body of the loop over the tests of one file. *)
Definition process_test (python : Py.version)
    (technique_id technique_name : pyval) (file_path : string) (test : pyval)
    : prog state unit :=
  (doc <- lift (build_document python technique_id technique_name file_path
                  test) ;;
   append_document doc ;;
   incr_count ;;
   n <- gets count ;;
   if (n mod 100 =? 0)%nat then emit (PrintCollected n) else ret tt)%prog.

(** Line 43: [not data or 'atomic_tests' not in data] *)
Definition no_tests (data : pyval) : result bool :=
  if negb (Py.truthy data) then Ok true
  else (found <- Py.contains "atomic_tests" data ;; Ok (negb found))%py.

(** Lines 39-91: what happens inside the [try] for one file. *)
Definition process_data (python : Py.version) (file_path : string)
    (data : pyval) : prog state unit :=
  (skip <- lift (no_tests data) ;;
   if skip then ret tt
   else
     technique_id <- lift (Py.get data "attack_technique" (PStr "Unknown")) ;;
     technique_name <- lift (Py.get data "display_name" (PStr "Unknown")) ;;
     tests <- lift (Py.get data "atomic_tests" (PList [])) ;;
     items <- lift (Py.iter tests) ;;
     for_each items
       (process_test python technique_id technique_name file_path))%prog.

(** Lines 35-94: one file name met by the walk. *)
Definition process_file (env : Env) (root file : string) : prog state unit :=
  if Str.endswith ".yaml" file && Str.startswith "T" file then
    let file_path := path_join env root file in
    try_except
      (data <- lift (load_yaml env file_path) ;;
       process_data (python env) file_path data)%prog
      is_Exception
      (fun e => emit (PrintErrorProcessing file e))
  else ret tt.

(** Lines 33-94: the walk. *)
Definition process_files (env : Env) (root : string) (files : list string)
    : prog state unit :=
  for_each files (process_file env root).

Definition walk (env : Env) (dirs : list (string * list string))
    : prog state unit :=
  for_each dirs (fun d => process_files env (fst d) (snd d)).

(** Lines 13-112. *)
Definition main (env : Env) : prog state unit :=
  (emit PrintStarting ;;
   match import_faiss env with
   | Raise e =>
       if is_ImportError e then emit PrintFaissMissing else lift (Raise e)
   | Ok version =>
       emit (PrintFaissImported version) ;;
       emit PrintCpuMode ;;
       emit (PrintScanning (DATASET_ROOT env)) ;;
       walk env (os_walk env) ;;
       docs <- gets documents ;;
       emit (PrintTotal (List.length docs)) ;;
       emit PrintInitEmbeddings ;;
       lift (embeddings_init env) ;;
       emit PrintBuilding ;;
       emit (CallFromDocuments docs) ;;
       lift (from_documents env docs) ;;
       emit (PrintSaving INDEX_NAME) ;;
       emit (CallSaveLocal INDEX_NAME) ;;
       lift (save_local env INDEX_NAME) ;;
       emit PrintSuccess
   end)%prog.

End Ingest.

(** * The query pipeline: [query_rag.py] *)

Module Query.

Definition INDEX_FOLDER : string := "faiss_index".
Definition GROQ_MODEL_NAME : string := "llama-3.3-70b-versatile".

(** The four arguments [analyst_prompt.format] is given (lines 172-177).
    The template is fixed text around them.  [iocs] is the value that the
    source passes through [json.dumps(iocs, indent=2)]. *)
Record AnalystArgs : Type := mkAnalystArgs {
  context : string;
  original_alert : string;
  iocs : pyval;
  ioc_details : string
}.

(** What the pipeline gets from outside. *)
Record Env : Type := {
  (** [os.getenv("GROQ_API_KEY")] *)
  getenv_GROQ_API_KEY : option string;
  (** [HuggingFaceEmbeddings(model_name="all-MiniLM-L6-v2")] *)
  embeddings_init : result unit;
  (** [FAISS.load_local(folder, embeddings, ...)] *)
  load_local : string -> result unit;
  (** [ChatGroq(temperature=0, model_name=..., groq_api_key=...)] *)
  chat_groq : string -> string -> result unit;
  (** [rewriter_chain.invoke({"raw_alert": query})] *)
  rewriter_invoke : string -> result string;
  (** [json.loads] *)
  json_loads : string -> result pyval;
  (** [vectorstore.similarity_search(query, k=k)] *)
  similarity_search : pyval -> nat -> result (list Document);
  (** [llm.invoke(analyst_prompt.format(...)).content] *)
  llm_invoke : AnalystArgs -> result string
}.

(** What the pipeline does to the outside, in order: the prints of the
    source (a run of prints of fixed text is one constructor) and the
    calls to the collaborators. *)
Inductive event : Type :=
| PrintBanner
| PrintNoApiKey
| PrintLoadedKey (masked : string)
| PrintLoadingIndex
| PrintCpuMode
| CallLoadLocal (folder : string)
| PrintIndexLoaded
| PrintLoadFailed (e : exn)
| PrintConnecting (model : string)
| PrintLlmFailed (e : exn)
| PrintReady
| Prompt
| PrintShuttingDown
| PrintStep1
| CallRewriter (raw_alert : string)
| PrintEnhancedQuery (q : pyval)
| PrintExtractedIocs (i : pyval)
| PrintStep2
| CallSearch (q : pyval) (k : nat)
| PrintStep3
| CallAnalyst (args : AnalystArgs)
| PrintAnalysis (text : string)
| PrintSourcesHeader
| PrintSource (i : nat) (technique platform : pyval)
| PrintSourcesEnd
| PrintErrorDuringAnalysis (e : exn).

Definition trace : Type := list event.

Definition emit (e : event) : prog trace unit :=
  modify (fun t => t ++ [e]).

(** Lines 134-141: decode the answer of the rewriter, or fall back. *)
Definition parse_rewrite (env : Env) (query rewriter_output : string)
    : result (pyval * pyval) :=
  match
    (rewriter_data <- json_loads env rewriter_output ;;
     enhanced_query <- Py.get rewriter_data "enhanced_query" (PStr query) ;;
     iocs <- Py.get rewriter_data "iocs" (PDict []) ;;
     Ok (enhanced_query, iocs))%py
  with
  | Raise e =>
      if is_JSONDecodeError e then Ok (PStr query, PDict []) else Raise e
  | done => done
  end.

(** Line 149: the retriever. *)
Definition retrieve (env : Env) (enhanced_query : pyval)
    : prog trace (list Document) :=
  (emit (CallSearch enhanced_query 4) ;;
   lift (similarity_search env enhanced_query 4))%prog.

(** Lines 152-155: [enumerate(retrieved_docs, 1)] and the context block. *)
Fixpoint enumerate {A} (start : nat) (l : list A) : list (nat * A) :=
  match l with
  | [] => []
  | x :: l' => (start, x) :: enumerate (S start) l'
  end.

Definition context_part (id : nat * Document) : string :=
  "[Source " +:+ Str.of_nat (fst id) +:+ "] " +:+ page_content (snd id).

Definition context_str (retrieved_docs : list Document) : string :=
  Str.join (Str.nl +:+ Str.nl) (map context_part (enumerate 1 retrieved_docs)).

(** Lines 161-169: the indicator listing. *)
Definition render_ioc_details (iocs : pyval) : result string :=
  (let ioc_details := "" in
   source_ip <- Py.get iocs "source_ip" PNone ;;
   ioc_details <-
     (if Py.truthy source_ip
      then v <- Py.getitem iocs "source_ip" ;;
           Ok (ioc_details +:+ "- Source IP: " +:+ Py.str v +:+ Str.nl)
      else Ok ioc_details) ;;
   dest_ip <- Py.get iocs "dest_ip" PNone ;;
   ioc_details <-
     (if Py.truthy dest_ip
      then v <- Py.getitem iocs "dest_ip" ;;
           Ok (ioc_details +:+ "- Destination IP: " +:+ Py.str v +:+ Str.nl)
      else Ok ioc_details) ;;
   protocol <- Py.get iocs "protocol" PNone ;;
   ioc_details <-
     (if Py.truthy protocol
      then v <- Py.getitem iocs "protocol" ;;
           Ok (ioc_details +:+ "- Protocol: " +:+ Py.str v +:+ Str.nl)
      else Ok ioc_details) ;;
   Ok (if negb (Py.truthy (PStr ioc_details))
       then "- No IOCs extracted (clean query)" +:+ Str.nl
       else ioc_details))%py.

(** [doc.metadata.get(key, 'Unknown')] *)
Definition metadata_get (doc : Document) (key : string) : pyval :=
  default (PStr "Unknown") (metadata doc !! key).

(** Lines 130-145, step 1: the rewriter is asked once and its answer is
    decoded; the result is [(enhanced_query, iocs)]. *)
Definition rewrite_query (env : Env) (query : string)
    : prog trace (pyval * pyval) :=
  (emit PrintStep1 ;;
   emit (CallRewriter query) ;;
   rewriter_output <- lift (rewriter_invoke env query) ;;
   rewritten <- lift (parse_rewrite env query rewriter_output) ;;
   emit (PrintEnhancedQuery (fst rewritten)) ;;
   (if Py.truthy (snd rewritten) then emit (PrintExtractedIocs (snd rewritten))
    else ret tt) ;;
   ret rewritten)%prog.

(** Lines 158-178, step 3: the analysis generator. *)
Definition generate_analysis (env : Env) (query : string) (iocs : pyval)
    (retrieved_docs : list Document) : prog trace string :=
  (emit PrintStep3 ;;
   details <- lift (render_ioc_details iocs) ;;
   let args := mkAnalystArgs (context_str retrieved_docs) query iocs details in
   emit (CallAnalyst args) ;;
   lift (llm_invoke env args))%prog.

(** Lines 181-193: the report and the sources that were used. *)
Definition print_results (analysis : string) (retrieved_docs : list Document)
    : prog trace unit :=
  (emit (PrintAnalysis analysis) ;;
   emit PrintSourcesHeader ;;
   for_each (enumerate 1 retrieved_docs)
     (fun id => emit (PrintSource (fst id)
                        (metadata_get (snd id) "technique_name")
                        (metadata_get (snd id) "platform"))) ;;
   emit PrintSourcesEnd)%prog.

(** Lines 129-193: the body of the [try] of one turn. *)
Definition turn (env : Env) (query : string) : prog trace unit :=
  (rewritten <- rewrite_query env query ;;
   let enhanced_query := fst rewritten in
   let iocs := snd rewritten in
   emit PrintStep2 ;;
   retrieved_docs <- retrieve env enhanced_query ;;
   analysis <- generate_analysis env query iocs retrieved_docs ;;
   print_results analysis retrieved_docs)%prog.

(** Line 122: [query.lower() in ["exit", "quit", "q"]] *)
Definition is_exit (query : string) : bool :=
  existsb (String.eqb (Str.lower query)) ["exit"; "quit"; "q"].

(** Lines 121-196: one round of the [while True] loop, on the line [raw]
    that [input] returned; it ends in [break] or goes round again. *)
Inductive control : Type := Break | Continue.

Definition iteration (env : Env) (raw : string) : prog trace control :=
  (emit Prompt ;;
   let query := Str.strip raw in
   if is_exit query then emit PrintShuttingDown ;; ret Break
   else if negb (Py.truthy (PStr query)) then ret Continue
   else
     try_except (turn env query) is_Exception
       (fun e => emit (PrintErrorDuringAnalysis e)) ;;
     ret Continue)%prog.

(** Lines 120-196: the interactive loop, over the lines that will be
    typed.  When they run out [input] raises [EOFError], outside any
    [try]. *)
Fixpoint loop (env : Env) (inputs : list string) : prog trace unit :=
  match inputs with
  | [] => (emit Prompt ;; lift (Raise EOFError))%prog
  | raw :: rest =>
      (c <- iteration env raw ;;
       match c with
       | Break => ret tt
       | Continue => loop env rest
       end)%prog
  end.

(** [api_key[:4]], ten stars, [api_key[-4:]] *)
Definition mask (api_key : string) : string :=
  let n := String.length api_key in
  Str.take 4 api_key +:+ "**********" +:+ String.substring (n - 4) 4 api_key.

(** Lines 18-196. *)
Definition main (env : Env) (inputs : list string) : prog trace unit :=
  (emit PrintBanner ;;
   match getenv_GROQ_API_KEY env with
   | None => emit PrintNoApiKey
   | Some api_key0 =>
       if negb (Py.truthy (PStr api_key0)) then emit PrintNoApiKey
       else
         let api_key := Str.strip api_key0 in
         emit (PrintLoadedKey (mask api_key)) ;;
         emit PrintLoadingIndex ;;
         loaded <-
           try_except
             (lift (embeddings_init env) ;;
              emit PrintCpuMode ;;
              emit (CallLoadLocal INDEX_FOLDER) ;;
              lift (load_local env INDEX_FOLDER) ;;
              emit PrintIndexLoaded ;;
              ret true)
             is_Exception
             (fun e => emit (PrintLoadFailed e) ;; ret false) ;;
         if negb loaded then ret tt
         else
           emit (PrintConnecting GROQ_MODEL_NAME) ;;
           connected <-
             try_except
               (lift (chat_groq env GROQ_MODEL_NAME api_key) ;; ret true)
               is_Exception
               (fun e => emit (PrintLlmFailed e) ;; ret false) ;;
           if negb connected then ret tt
           else
             emit PrintReady ;;
             loop env inputs
   end)%prog.

End Query.

(** * The Embedding Index *)

(** Modelled from the spec: the Embedding Index (section 4.3), which the
    programs use through the FAISS store of LangChain; its code is not among
    the source files.  [build] embeds the content of every document and keeps
    the document beside its vector; [search] embeds the query with the same
    model and returns the [k] nearest documents, most similar first.  The
    embedding model and the similarity order are parameters. *)
Module Index.

Section Model.
Context {vector : Type}.
Variable embed : string -> vector.
(** [closer q a b]: [a] is at least as similar to [q] as [b] is *)
Variable closer : vector -> vector -> vector -> bool.

Definition index : Type := list (vector * Document).

Definition build (documents : list Document) : index :=
  map (fun d => (embed (page_content d), d)) documents.

Fixpoint insert (q : vector) (x : vector * Document) (l : index) : index :=
  match l with
  | [] => [x]
  | y :: l' =>
      if closer q (fst x) (fst y) then x :: y :: l' else y :: insert q x l'
  end.

Definition ranked (q : vector) (idx : index) : index :=
  fold_right (insert q) [] idx.

Definition search (idx : index) (query_text : string) (k : nat)
    : list Document :=
  map snd (firstn k (ranked (embed query_text) idx)).

(** the order in which [search] lists documents for a query *)
Definition before (query_text : string) (d1 d2 : Document) : Prop :=
  closer (embed query_text) (embed (page_content d1))
         (embed (page_content d2)) = true.

End Model.

End Index.

(** * Vocabulary of the statements *)

(** ** Atomic test records *)

Module Shape.

Definition absent_or (ok : pyval -> bool) (o : option pyval) : bool :=
  match o with
  | None => true
  | Some v => ok v
  end.

Definition is_string (v : pyval) : bool :=
  match v with PStr _ => true | _ => false end.

Definition is_string_list (v : pyval) : bool :=
  match v with
  | PList l => forallb is_string l
  | _ => false
  end.

Definition is_executor (v : pyval) : bool :=
  match v with
  | PDict e => absent_or is_string (Py.lookup "command" e)
  | _ => false
  end.

(** An atomic test record: a mapping in which [description],
    [supported_platforms], [executor] and the [command] of the executor
    are each either missing or of the type the data model gives them. *)
Definition atomic_test (test : pyval) : bool :=
  match test with
  | PDict t =>
      absent_or is_string (Py.lookup "description" t)
      && absent_or is_string_list (Py.lookup "supported_platforms" t)
      && absent_or is_executor (Py.lookup "executor" t)
  | _ => false
  end.

(** The fields of a record as the data model describes them, with the
    documented defaults. *)
Definition name_of (t : list (string * pyval)) : pyval :=
  default (PStr "Unnamed Test") (Py.lookup "name" t).

Definition description_of (t : list (string * pyval)) : string :=
  match Py.lookup "description" t with
  | Some (PStr s) => Str.strip s
  | _ => ""
  end.

Fixpoint strings (l : list pyval) : list string :=
  match l with
  | PStr s :: l' => s :: strings l'
  | _ :: l' => strings l'
  | [] => []
  end.

Definition platforms_of (t : list (string * pyval)) : string :=
  match Py.lookup "supported_platforms" t with
  | Some (PList (p :: ps)) => Str.join ", " (strings (p :: ps))
  | _ => "unknown"
  end.

Definition executor_of (t : list (string * pyval)) : list (string * pyval) :=
  match Py.lookup "executor" t with
  | Some (PDict e) => e
  | _ => []
  end.

Definition executor_name_of (t : list (string * pyval)) : pyval :=
  default (PStr "unknown") (Py.lookup "name" (executor_of t)).

Definition command_of (t : list (string * pyval)) : string :=
  match Py.lookup "command" (executor_of t) with
  | Some (PStr s) => s
  | _ => ""
  end.

(** The Document the data model describes for a record. *)
Definition document_of (technique_id technique_name : pyval)
    (file_path : string) (t : list (string * pyval)) : Document :=
  mkDocument
    (Ingest.compose_content technique_id technique_name (name_of t)
       (platforms_of t) (description_of t) (PStr (command_of t)))
    (list_to_map
       [("technique_id", technique_id);
        ("technique_name", technique_name);
        ("test_name", name_of t);
        ("platform", PStr (platforms_of t));
        ("executor", executor_name_of t);
        ("command", PStr (Str.take 1000 (command_of t)));
        ("source", PStr file_path)]).

(** The command of a test as the builder reads it (lines 59-60). *)
Definition read_command (test : pyval) : result pyval :=
  (executor <- Py.get test "executor" (PDict []) ;;
   Py.get executor "command" (PStr ""))%py.

(** The keys of the metadata, as the source writes them. *)
Definition metadata_keys : gset string :=
  {[ "technique_id"; "technique_name"; "test_name"; "platform";
     "executor"; "command"; "source" ]}.

(** The keys of the metadata, as the data model of the specification
    lists them. *)
Definition documented_metadata_keys : gset string :=
  {[ "technique_id"; "technique_name"; "test_name"; "platform";
     "executor"; "command"; "source_path" ]}.

(** ** Indicators *)

(** A field of the indicator mapping is populated when the test of lines
    162-166 succeeds: the key is there and its value is not null and not
    the empty string. *)
Definition populated (d : list (string * pyval)) (key : string) : option pyval :=
  match Py.lookup key d with
  | Some v => if Py.truthy v then Some v else None
  | None => None
  end.

Definition indicator_line (label : string) (v : pyval) : string :=
  "- " +:+ label +:+ ": " +:+ Py.str v +:+ Str.nl.

Definition no_indicators_line : string :=
  "- No IOCs extracted (clean query)" +:+ Str.nl.

Definition indicator_fields : list (string * string) :=
  [("source_ip", "Source IP"); ("dest_ip", "Destination IP");
   ("protocol", "Protocol")].

(** one line for each populated field, in the order of the fields *)
Definition indicator_lines (d : list (string * pyval)) : list string :=
  omap (fun f => indicator_line (snd f) <$> populated d (fst f))
       indicator_fields.

Definition listing (d : list (string * pyval)) : list string :=
  match indicator_lines d with
  | [] => [no_indicators_line]
  | ls => ls
  end.

Definition is_populated (d : list (string * pyval)) (key : string) : bool :=
  match populated d key with
  | Some _ => true
  | None => false
  end.

Definition populated_count (d : list (string * pyval)) : nat :=
  List.length
    (List.filter (fun f => is_populated d (fst f)) indicator_fields).

End Shape.

(** ** Invariants of programs *)

(** [p] keeps [I]: whatever [p] returns or raises, a state in [I] is left
    in [I]. *)
Definition preserves {S A} (I : S -> Prop) (p : prog S A) : Prop :=
  forall s, I s -> I (snd (p s)).

(** the documents added to [docs0] all satisfy [P] *)
Definition added_documents (P : Document -> Prop) (docs0 : list Document)
    (s : Ingest.state) : Prop :=
  exists new, Ingest.documents s = docs0 ++ new /\ Forall P new.

(** the events added to [t0] all satisfy [P] *)
Definition added_events (P : Query.event -> Prop) (t0 : Query.trace)
    (t : Query.trace) : Prop :=
  exists new, t = t0 ++ new /\ Forall P new.

(** a document that the builder produced *)
Definition built (d : Document) : Prop :=
  exists python technique_id technique_name file_path test,
    Ingest.build_document python technique_id technique_name file_path test
    = Ok d.

(** an event of a turn on the alert [query]: the rewriter and the analysis
    generator are given [query] and nothing else *)
Definition about_alert (query : string) (e : Query.event) : Prop :=
  match e with
  | Query.CallRewriter raw_alert => raw_alert = query
  | Query.CallAnalyst args => Query.original_alert args = query
  | _ => True
  end.


(** an event of a run over well-formed tests: only the progress line *)
Definition only_progress (e : Ingest.event) : Prop :=
  match e with
  | Ingest.PrintCollected _ => True
  | _ => False
  end.

(** a document whose technique identifier is the literal [Unknown], in the
    metadata and in the embedded text *)
Definition unknown_technique_id (doc : Document) : Prop :=
  metadata doc !! "technique_id" = Some (PStr "Unknown")
  /\ exists rest,
       page_content doc
       = Str.nl +:+ Ingest.indent +:+ "Technique: Unknown: " +:+ rest.

(** the same for the technique name *)
Definition unknown_technique_name (doc : Document) : Prop :=
  metadata doc !! "technique_name" = Some (PStr "Unknown")
  /\ exists technique_id rest,
       page_content doc
       = Str.nl +:+ Ingest.indent +:+ "Technique: " +:+ technique_id
           +:+ ": Unknown" +:+ Str.nl +:+ Ingest.indent +:+ "Test Name: "
           +:+ rest.

(** what the guard of line 195 leaves in the trace when the turn ended with
    [r] *)
Definition guard_trace (r : result unit) (t : Query.trace) : Query.trace :=
  match r with
  | Ok _ => t
  | Raise e =>
      if is_Exception e then t ++ [Query.PrintErrorDuringAnalysis e] else t
  end.

(** the order of the entries of an index for a query vector *)
Definition entry_le {vector : Type} (closer : vector -> vector -> vector -> bool)
    (q : vector) (x y : vector * Document) : Prop :=
  closer q (fst x) (fst y) = true.

(** ** Vocabulary of the further properties *)

(** every exception the program can raise satisfies [Q] *)
Definition raises_only {S A} (Q : exn -> Prop) (p : prog S A) : Prop :=
  forall s e, fst (p s) = Raise e -> Q e.

(** escapes [except Exception] *)
Definition not_caught (e : exn) : Prop := is_Exception e = false.

(** line 35 of [ingest_atomics.py]:
    [file.endswith(".yaml") and file.startswith("T")] *)
Definition definition_file_name (file : string) : bool :=
  Str.endswith ".yaml" file && Str.startswith "T" file.

(** the directory tree without the files of other names *)
Definition only_definition_files (dirs : list (string * list string))
    : list (string * list string) :=
  map (fun d => (fst d, List.filter definition_file_name (snd d))) dirs.

(** the state after some more lines of output *)
Definition logged (s : Ingest.state) (events : list Ingest.event)
    : Ingest.state :=
  Ingest.mkState (Ingest.documents s) (Ingest.count s)
    (Ingest.log s ++ events).

(** the numbers of the progress lines of a log, in order *)
Fixpoint collected (log : list Ingest.event) : list nat :=
  match log with
  | [] => []
  | Ingest.PrintCollected n :: log' => n :: collected log'
  | _ :: log' => collected log'
  end.

(** the counter counts the documents, and a progress line stands in the log
    for every full hundred of them *)
Definition counted (s : Ingest.state) : Prop :=
  Ingest.count s = List.length (Ingest.documents s)
  /\ collected (Ingest.log s)
     = map (fun k => 100 * k)%nat (seq 1 (Ingest.count s / 100)).

(** what the walk writes to the log: progress lines, and reports of
    exceptions that [except Exception] caught *)
Definition walk_event (e : Ingest.event) : Prop :=
  match e with
  | Ingest.PrintCollected _ => True
  | Ingest.PrintErrorProcessing _ x => is_Exception x = true
  | _ => False
  end.

Definition added_log (P : Ingest.event -> Prop) (log0 : list Ingest.event)
    (s : Ingest.state) : Prop :=
  exists new, Ingest.log s = log0 ++ new /\ Forall P new.

(** The values on which the builder (lines 51-86) does not raise, field by
    field.  [", ".join(v)] takes a list of texts, a text or a mapping with
    text keys; [v[:1000]] a text or a list. *)
Definition joinable (v : pyval) : bool :=
  match v with
  | PList l => forallb Shape.is_string l
  | PStr _ | PDict _ => true
  | _ => false
  end.

Definition sliceable (v : pyval) : bool :=
  match v with
  | PStr _ | PList _ => true
  | _ => false
  end.

(** [", ".join(platforms) if platforms else "unknown"] *)
Definition usable_platforms (v : pyval) : bool :=
  negb (Py.truthy v) || joinable v.

(** [executor.get(...)] twice, and the slice of the command *)
Definition usable_executor (v : pyval) : bool :=
  match v with
  | PDict e => Shape.absent_or sliceable (Py.lookup "command" e)
  | _ => false
  end.

Definition buildable (test : pyval) : bool :=
  match test with
  | PDict t =>
      Shape.absent_or Shape.is_string (Py.lookup "description" t)
      && Shape.absent_or usable_platforms (Py.lookup "supported_platforms" t)
      && Shape.absent_or usable_executor (Py.lookup "executor" t)
  | _ => false
  end.

(** a document and the file it was read from *)
Definition read_from (env : Ingest.Env) (dirs : list (string * list string))
    (d : Document) : Prop :=
  exists root files file data,
    In (root, files) dirs /\ In file files
    /\ definition_file_name file = true
    /\ Ingest.load_yaml env (Ingest.path_join env root file) = Ok data
    /\ metadata d !! "source"
       = Some (PStr (Ingest.path_join env root file)).

(** the content of a document is composed from the values its metadata
    holds, and the command of the metadata is the first 1000 characters of
    the command of the content *)
Definition content_matches_metadata (d : Document) : Prop :=
  exists technique_id technique_name test_name platform description command
         command1000,
    metadata d !! "technique_id" = Some technique_id
    /\ metadata d !! "technique_name" = Some technique_name
    /\ metadata d !! "test_name" = Some test_name
    /\ metadata d !! "platform" = Some (PStr platform)
    /\ metadata d !! "command" = Some command1000
    /\ (forall python, Py.slice_to python 1000 command = Ok command1000)
    /\ page_content d
       = Ingest.compose_content technique_id technique_name test_name
           platform description command.

(** the calls of a trace to the three stages of a turn: the rewriter, the
    search and the analyst *)
Definition is_stage_call (e : Query.event) : bool :=
  match e with
  | Query.CallRewriter _ | Query.CallSearch _ _ | Query.CallAnalyst _ => true
  | _ => false
  end.

Definition stage_calls (t : Query.trace) : list Query.event :=
  List.filter is_stage_call t.

(** lines 189-192 of [query_rag.py]: the line printed for one source *)
Definition source_event (id : nat * Document) : Query.event :=
  Query.PrintSource (fst id) (Query.metadata_get (snd id) "technique_name")
    (Query.metadata_get (snd id) "platform").

(** * Sample data *)

Module Sample.

(** [posixpath.join] of two components *)
Definition posix_join (a b : string) : string :=
  if Str.startswith "/" b then b
  else if String.eqb a "" || Str.endswith "/" a then a +:+ b
  else a +:+ "/" +:+ b.

Definition test_full : pyval :=
  PDict [("name", PStr "Dump LSASS");
         ("description", PStr "  Dumps the memory of lsass.  ");
         ("supported_platforms", PList [PStr "windows"; PStr "linux"]);
         ("executor", PDict [("command", PStr "procdump -ma lsass.exe");
                             ("name", PStr "powershell")])].

Definition long_command : string := Str.concat (repeat "x" 1200).

Definition test_long : pyval :=
  PDict [("name", PStr "Long");
         ("executor", PDict [("command", PStr long_command)])].

Definition definition_full : pyval :=
  PDict [("attack_technique", PStr "T1003");
         ("display_name", PStr "OS Credential Dumping");
         ("atomic_tests", PList [test_full; PDict []])].

(** a definition with tests but neither technique field *)
Definition definition_anonymous : list (string * pyval) :=
  [("atomic_tests", PList [test_full; PDict []])].

(** A small tree: a good file, one that is not a definition file by its
    name, one that does not parse, an empty one, one without tests. *)
Definition load_yaml (path : string) : result pyval :=
  if String.eqb path "atomics/T1003/T1003.yaml" then Ok definition_full
  else if String.eqb path "atomics/T1003/Tbroken.yaml"
       then Raise (OtherException "yaml.scanner.ScannerError")
  else if String.eqb path "atomics/T1003/Tempty.yaml" then Ok PNone
  else if String.eqb path "atomics/T1003/Tindex.yaml"
       then Ok (PDict [("display_name", PStr "Index")])
  else if String.eqb path "atomics/T1548/T1548.yaml"
       then Ok (PDict definition_anonymous)
  else Raise (OtherException "FileNotFoundError").

Definition ingest_env : Ingest.Env :=
  {| Ingest.python := Py.Since312;
     Ingest.import_faiss := Ok "1.8.0";
     Ingest.DATASET_ROOT := "atomics";
     Ingest.os_walk :=
       [("atomics", ["README.md"]);
        ("atomics/T1003",
         ["Tbroken.yaml"; "T1003.md"; "Tempty.yaml"; "Tindex.yaml";
          "T1003.yaml"]);
        ("atomics/T1548", ["T1548.yaml"])];
     Ingest.path_join := posix_join;
     Ingest.load_yaml := load_yaml;
     Ingest.embeddings_init := Ok tt;
     Ingest.from_documents := fun _ => Ok tt;
     Ingest.save_local := fun _ => Ok tt |}.

Definition doc_a : Document :=
  mkDocument "ssh brute force"
    (list_to_map [("technique_name", PStr "Brute Force");
                  ("platform", PStr "linux")]).

Definition doc_b : Document :=
  mkDocument "lsass memory credential dumping"
    (list_to_map [("technique_name", PStr "OS Credential Dumping");
                  ("platform", PStr "windows")]).

(** [json.loads] on the two answers the examples use: a text that is not
    JSON, and the JSON text of an empty array. *)
Definition not_json : string := "Sorry, I cannot help with that.".
Definition json_array : string := "[]".

Definition json_loads (text : string) : result pyval :=
  if String.eqb text not_json then Raise JSONDecodeError
  else if String.eqb text json_array then Ok (PList [])
  else Raise (OtherException "not among the sample answers").

(** a model for the sample index: a text is embedded as its length, and
    closeness is the distance between lengths *)
Definition embed (text : string) : nat := String.length text.

Definition closer (q a b : nat) : bool :=
  ((if q <=? a then a - q else q - a) <=? (if q <=? b then b - q else q - b))%nat.

Definition similarity_search (docs : list Document) (q : pyval) (k : nat)
    : result (list Document) :=
  match q with
  | PStr text => Ok (Index.search embed closer (Index.build embed docs) text k)
  | _ => Raise TypeError
  end.

(** an environment in which the rewriter answers [answer] to every alert *)
Definition query_env (answer : string) : Query.Env :=
  {| Query.getenv_GROQ_API_KEY := Some "gsk_0123456789";
     Query.embeddings_init := Ok tt;
     Query.load_local := fun _ => Ok tt;
     Query.chat_groq := fun _ _ => Ok tt;
     Query.rewriter_invoke := fun _ => Ok answer;
     Query.json_loads := json_loads;
     Query.similarity_search := similarity_search [doc_a; doc_b];
     Query.llm_invoke := fun _ => Ok "analysis" |}.

(** the same, but the persisted index cannot be loaded *)
Definition query_env_no_index : Query.Env :=
  {| Query.getenv_GROQ_API_KEY := Some "gsk_0123456789";
     Query.embeddings_init := Ok tt;
     Query.load_local := fun _ => Raise (OtherException "RuntimeError");
     Query.chat_groq := fun _ _ => Ok tt;
     Query.rewriter_invoke := fun _ => Ok not_json;
     Query.json_loads := json_loads;
     Query.similarity_search := similarity_search [doc_a; doc_b];
     Query.llm_invoke := fun _ => Ok "analysis" |}.

Definition indicators_protocol_only : list (string * pyval) :=
  [("source_ip", PNone); ("protocol", PStr "TCP")].

(** the same tree on a machine without the [faiss] package *)
Definition ingest_env_no_faiss : Ingest.Env :=
  {| Ingest.python := Py.Since312;
     Ingest.import_faiss := Raise ImportError;
     Ingest.DATASET_ROOT := "atomics";
     Ingest.os_walk := Ingest.os_walk ingest_env;
     Ingest.path_join := posix_join;
     Ingest.load_yaml := load_yaml;
     Ingest.embeddings_init := Ok tt;
     Ingest.from_documents := fun _ => Ok tt;
     Ingest.save_local := fun _ => Ok tt |}.

(** a definition whose second test is a text, not a record *)
Definition definition_bad_test : list (string * pyval) :=
  [("attack_technique", PStr "T1059");
   ("atomic_tests", PList [test_full; PStr "oops"; test_full])].

(** a tree of two files: that definition, and a file that holds a list *)
Definition load_yaml_odd (path : string) : result pyval :=
  if String.eqb path "atomics/T1059/T1059.yaml" then Ok (PDict definition_bad_test)
  else if String.eqb path "atomics/T1059/Tlist.yaml"
       then Ok (PList [PStr "atomic_tests"])
  else Raise (OtherException "FileNotFoundError").

Definition ingest_env_odd : Ingest.Env :=
  {| Ingest.python := Py.Since312;
     Ingest.import_faiss := Ok "1.8.0";
     Ingest.DATASET_ROOT := "atomics";
     Ingest.os_walk := [("atomics/T1059", ["T1059.yaml"; "Tlist.yaml"])];
     Ingest.path_join := posix_join;
     Ingest.load_yaml := load_yaml_odd;
     Ingest.embeddings_init := Ok tt;
     Ingest.from_documents := fun _ => Ok tt;
     Ingest.save_local := fun _ => Ok tt |}.

(** Two answers of a rewriter that are JSON objects, and their decoding:
    one as the prompt asks for, one whose indicators are a list. *)
Definition quoted (s : string) : string :=
  String Str.dquote (s +:+ String Str.dquote "").

Definition json_object : string :=
  "{" +:+ quoted "enhanced_query" +:+ ": " +:+ quoted "ssh brute force"
  +:+ ", " +:+ quoted "iocs" +:+ ": {" +:+ quoted "protocol" +:+ ": "
  +:+ quoted "TCP" +:+ "}}".

Definition json_object_list : string :=
  "{" +:+ quoted "iocs" +:+ ": [" +:+ quoted "10.0.0.1" +:+ "]}".

Definition json_loads_objects (text : string) : result pyval :=
  if String.eqb text json_object
  then Ok (PDict [("enhanced_query", PStr "ssh brute force");
                  ("iocs", PDict [("protocol", PStr "TCP")])])
  else if String.eqb text json_object_list
  then Ok (PDict [("iocs", PList [PStr "10.0.0.1"])])
  else json_loads text.

Definition query_env_objects (answer : string) : Query.Env :=
  {| Query.getenv_GROQ_API_KEY := Some "gsk_0123456789";
     Query.embeddings_init := Ok tt;
     Query.load_local := fun _ => Ok tt;
     Query.chat_groq := fun _ _ => Ok tt;
     Query.rewriter_invoke := fun _ => Ok answer;
     Query.json_loads := json_loads_objects;
     Query.similarity_search := similarity_search [doc_a; doc_b];
     Query.llm_invoke := fun _ => Ok "analysis" |}.

(** the environment variable is not set *)
Definition query_env_no_key : Query.Env :=
  {| Query.getenv_GROQ_API_KEY := None;
     Query.embeddings_init := Ok tt;
     Query.load_local := fun _ => Ok tt;
     Query.chat_groq := fun _ _ => Ok tt;
     Query.rewriter_invoke := fun _ => Ok not_json;
     Query.json_loads := json_loads;
     Query.similarity_search := similarity_search [doc_a; doc_b];
     Query.llm_invoke := fun _ => Ok "analysis" |}.



End Sample.

(** * Facts about strings *)

Section StringFacts.

Lemma append_cons (c : ascii) (s t : string) :
  String c s +:+ t = String c (s +:+ t).
Proof. reflexivity. Qed.

Lemma append_empty_r (s : string) : s +:+ "" = s.
Proof.
  induction s as [|c s IH]; [reflexivity|]. now rewrite append_cons, IH.
Qed.

Lemma append_assoc (a b c : string) : (a +:+ b) +:+ c = a +:+ (b +:+ c).
Proof.
  induction a as [|x a IH]; [reflexivity|]. now rewrite !append_cons, IH.
Qed.

Lemma append_eq_empty (a b : string) : a +:+ b = "" -> a = "" /\ b = "".
Proof. destruct a; [auto | rewrite append_cons; discriminate]. Qed.

Lemma take_length (n : nat) (s : string) :
  (String.length (Str.take n s) <= n)%nat.
Proof.
  revert s; induction n as [|n IH]; intros [|c s]; simpl; try lia.
  specialize (IH s); lia.
Qed.

Lemma take_all (n : nat) (s : string) :
  (String.length s <= n)%nat -> Str.take n s = s.
Proof.
  revert s; induction n as [|n IH]; intros [|c s]; simpl; intros H;
    try reflexivity; try lia.
  rewrite IH; [reflexivity | lia].
Qed.

Lemma take_prefix (n : nat) (s : string) :
  exists rest, s = Str.take n s +:+ rest.
Proof.
  revert s; induction n as [|n IH]; intros [|c s]; simpl; eauto.
  destruct (IH s) as [rest E]. exists rest. now rewrite append_cons, <- E.
Qed.

Lemma lstrip_all_space (s : string) :
  Str.all_space s = true -> Str.lstrip s = "".
Proof.
  induction s as [|c s IH]; simpl; [reflexivity|].
  destruct (Str.is_space c); simpl; [exact IH | discriminate].
Qed.

Lemma lstrip_head (s : string) :
  Str.all_space s = false ->
  exists c s', Str.lstrip s = String c s' /\ Str.is_space c = false.
Proof.
  induction s as [|c s IH]; simpl; [discriminate|].
  destruct (Str.is_space c) eqn:Ec; simpl; [exact IH | eauto].
Qed.

Lemma rstrip_head (c : ascii) (s : string) :
  Str.is_space c = false -> Str.rstrip (String c s) <> "".
Proof. intros Ec. simpl. rewrite Ec. destruct (Str.rstrip s); discriminate. Qed.

(** A line of blanks strips to nothing, and only such a line does. *)
Lemma strip_all_space (s : string) :
  Str.all_space s = true -> Str.strip s = "".
Proof. intros H. unfold Str.strip. now rewrite lstrip_all_space. Qed.

Lemma strip_not_all_space (s : string) :
  Str.all_space s = false -> Str.strip s <> "".
Proof.
  intros H. unfold Str.strip.
  destruct (lstrip_head s H) as (c & s' & -> & Ec). now apply rstrip_head.
Qed.

Lemma truthy_str (s : string) : Py.truthy (PStr s) = true <-> s <> "".
Proof.
  simpl. destruct (String.eqb_spec s ""); simpl; split; congruence.
Qed.

Lemma join_strings_all_strs (l : list pyval) :
  forallb Shape.is_string l = true -> Py.all_strs l = Ok (Shape.strings l).
Proof.
  induction l as [|v l IH]; simpl; [reflexivity|].
  destruct v; simpl; try discriminate. intros H. now rewrite IH.
Qed.

End StringFacts.

(** * Rules for invariants *)

Section Rules.
Context {S : Type}.
Implicit Type I : S -> Prop.

Lemma preserves_ret {A} I (a : A) : preserves I (ret a).
Proof. intros s H; exact H. Qed.

Lemma preserves_lift {A} I (r : result A) : preserves I (lift r).
Proof. intros s H; exact H. Qed.

Lemma preserves_gets {A} I (f : S -> A) : preserves I (gets f).
Proof. intros s H; exact H. Qed.

Lemma preserves_modify I (f : S -> S) :
  (forall s, I s -> I (f s)) -> preserves I (modify f).
Proof. intros Hf s H; apply Hf, H. Qed.

Lemma preserves_bind {A B} I (m : prog S A) (k : A -> prog S B) :
  preserves I m -> (forall a, preserves I (k a)) -> preserves I (bind m k).
Proof.
  intros Hm Hk s H. unfold bind. specialize (Hm s H).
  destruct (m s) as [[a|e] s']; simpl in *; [now apply Hk | exact Hm].
Qed.

(** after [lift r] the continuation only runs on what [r] returned *)
Lemma preserves_bind_lift {A B} I (r : result A) (k : A -> prog S B) :
  (forall a, r = Ok a -> preserves I (k a)) -> preserves I (bind (lift r) k).
Proof.
  intros Hk s H. unfold bind, lift.
  destruct r as [a|e]; [now apply Hk | exact H].
Qed.

Lemma preserves_try_except {A} I (body : prog S A) catches handler :
  preserves I body -> (forall e, preserves I (handler e)) ->
  preserves I (try_except body catches handler).
Proof.
  intros Hb Hh s H. unfold try_except. specialize (Hb s H).
  destruct (body s) as [[a|e] s']; simpl in *; [exact Hb|].
  destruct (catches e); [now apply Hh | exact Hb].
Qed.

Lemma preserves_for_each {A} I (l : list A) (body : A -> prog S unit) :
  (forall x, preserves I (body x)) -> preserves I (for_each l body).
Proof.
  intros Hb. induction l as [|x l IH]; simpl.
  - apply preserves_ret.
  - apply preserves_bind; [apply Hb | intros _; exact IH].
Qed.

Lemma preserves_if {A} I (b : bool) (p q : prog S A) :
  preserves I p -> preserves I q -> preserves I (if b then p else q).
Proof. destruct b; auto. Qed.

End Rules.

Ltac keep_step :=
  lazymatch goal with
  | |- preserves _ (bind (lift _) _) => apply preserves_bind_lift; intros ? ?
  | |- preserves _ (bind _ _) => apply preserves_bind; [| intros ?]
  | |- preserves _ (ret _) => apply preserves_ret
  | |- preserves _ (lift _) => apply preserves_lift
  | |- preserves _ (gets _) => apply preserves_gets
  | |- preserves _ (if _ then _ else _) => apply preserves_if
  | |- preserves _ (for_each _ _) => apply preserves_for_each; intros ?
  | |- preserves _ (try_except _ _ _) =>
      apply preserves_try_except; [| intros ?]
  end.

Ltac keep := repeat keep_step.

(** * The Document Builder and the ingestion *)

(** evaluate the Python operations of the builder, and nothing else *)
Ltac py_eval :=
  cbn [rbind Py.get Py.getitem Py.strip Py.truthy Py.slice_to Py.str
       Shape.absent_or Shape.is_string Shape.is_string_list Shape.is_executor
       default from_option id].

(** What a Document that the builder returned is made of. *)
Lemma build_document_inv python tid tname path test doc :
  Ingest.build_document python tid tname path test = Ok doc ->
  exists test_name platform_str description command executor_name command1000,
    Shape.read_command test = Ok command
    /\ Py.slice_to python 1000 command = Ok command1000
    /\ Py.get test "name" (PStr "Unnamed Test") = Ok test_name
    /\ doc = mkDocument
               (Ingest.compose_content tid tname test_name platform_str
                  description command)
               (list_to_map
                  [("technique_id", tid);
                   ("technique_name", tname);
                   ("test_name", test_name);
                   ("platform", PStr platform_str);
                   ("executor", executor_name);
                   ("command", command1000);
                   ("source", PStr path)]).
Proof.
  unfold Ingest.build_document, Shape.read_command.
  destruct (Py.get test "name" _) as [test_name|] eqn:E1; [|discriminate].
  cbn [rbind].
  destruct (Py.get test "description" _) as [d0|]; [|discriminate]. cbn [rbind].
  destruct (Py.strip d0) as [description|]; [|discriminate]. cbn [rbind].
  destruct (Py.get test "supported_platforms" _) as [platforms|]; [|discriminate].
  cbn [rbind].
  destruct (if Py.truthy platforms then _ else _) as [platform_str|];
    [|discriminate]. cbn [rbind].
  destruct (Py.get test "executor" _) as [executor|]; [|discriminate].
  cbn [rbind].
  destruct (Py.get executor "command" _) as [command|]; [|discriminate].
  cbn [rbind].
  destruct (Py.get executor "name" _) as [executor_name|]; [|discriminate].
  cbn [rbind].
  destruct (Py.slice_to python 1000 command) as [command1000|] eqn:E2;
    [|discriminate].
  cbn [rbind]. intros [= <-].
  exists test_name, platform_str, description, command, executor_name, command1000.
  auto.
Qed.

Lemma built_metadata_keys d : built d -> dom (metadata d) = Shape.metadata_keys.
Proof.
  intros (python & tid & tname & path & test & H).
  apply build_document_inv in H as (? & ? & ? & ? & ? & ? & _ & _ & _ & ->).
  cbn [metadata]. rewrite dom_list_to_map_L. cbn.
  unfold Shape.metadata_keys. set_solver.
Qed.

(** The documents that the ingestion adds to its list all come from the
    builder; what holds of the builder's documents holds of them. *)
Section IngestFacts.
Variable P : Document -> Prop.
Variable docs0 : list Document.

Lemma added_emit e : preserves (added_documents P docs0) (Ingest.emit e).
Proof. apply preserves_modify. intros s H; exact H. Qed.

Lemma added_incr : preserves (added_documents P docs0) Ingest.incr_count.
Proof. apply preserves_modify. intros s H; exact H. Qed.

Lemma added_append d :
  P d -> preserves (added_documents P docs0) (Ingest.append_document d).
Proof.
  intros Hd. apply preserves_modify. intros s (new & E & H).
  exists (new ++ [d]). cbn. rewrite E, app_assoc. split; [reflexivity|].
  apply Forall_app; auto.
Qed.

Lemma added_process_test python tid tname path test :
  (forall doc,
      Ingest.build_document python tid tname path test = Ok doc -> P doc) ->
  preserves (added_documents P docs0)
    (Ingest.process_test python tid tname path test).
Proof.
  intros HP. unfold Ingest.process_test.
  apply preserves_bind_lift; intros doc E.
  keep; auto using added_emit, added_incr, added_append.
Qed.

Lemma added_process_data python path data :
  (forall tid tname test doc,
      Py.get data "attack_technique" (PStr "Unknown") = Ok tid ->
      Py.get data "display_name" (PStr "Unknown") = Ok tname ->
      Ingest.build_document python tid tname path test = Ok doc -> P doc) ->
  preserves (added_documents P docs0) (Ingest.process_data python path data).
Proof.
  intros HP. unfold Ingest.process_data. keep.
  apply added_process_test. intros doc Hdoc. eauto.
Qed.

Lemma added_process_file env root file :
  (forall data tid tname test doc,
      Ingest.load_yaml env (Ingest.path_join env root file) = Ok data ->
      Py.get data "attack_technique" (PStr "Unknown") = Ok tid ->
      Py.get data "display_name" (PStr "Unknown") = Ok tname ->
      Ingest.build_document (Ingest.python env) tid tname
        (Ingest.path_join env root file) test
      = Ok doc -> P doc) ->
  preserves (added_documents P docs0) (Ingest.process_file env root file).
Proof.
  intros HP. unfold Ingest.process_file. keep; auto using added_emit.
  apply added_process_data. eauto.
Qed.

Hypothesis P_built : forall d, built d -> P d.

Lemma added_walk env dirs :
  preserves (added_documents P docs0) (Ingest.walk env dirs).
Proof.
  unfold Ingest.walk, Ingest.process_files. keep. apply added_process_file.
  intros. apply P_built. red. eauto 7.
Qed.

Lemma added_main env :
  preserves (added_documents P docs0) (Ingest.main env).
Proof.
  unfold Ingest.main. keep; [apply added_emit|].
  destruct (Ingest.import_faiss env) as [v|e].
  - keep; auto using added_emit, added_walk.
  - destruct (is_ImportError e); keep; apply added_emit.
Qed.
End IngestFacts.

Lemma added_nothing P s : added_documents P (Ingest.documents s) s.
Proof. exists []. split; [now rewrite app_nil_r | constructor]. Qed.

Lemma main_documents_built env d :
  In d (Ingest.documents (snd (Ingest.main env Ingest.init))) -> built d.
Proof.
  intros Hin.
  destruct (added_main built [] (fun d H => H) env Ingest.init
              (added_nothing built Ingest.init)) as (new & E & H).
  rewrite E in Hin. simpl in Hin. rewrite Forall_forall in H. apply H.
  now apply list_elem_of_In.
Qed.

(** C3, amended: every Document that the ingestion pipeline has produced
    when [main] ends has a metadata mapping whose key set is exactly
    technique_id, technique_name, test_name, platform, executor, command and
    source (the path of the file is stored under [source], not
    [source_path]). *)
Theorem C3_metadata_keys (env : Ingest.Env) (d : Document) :
  In d (Ingest.documents (snd (Ingest.main env Ingest.init))) ->
  dom (metadata d) = Shape.metadata_keys.
Proof. intros H. apply built_metadata_keys, (main_documents_built env), H. Qed.

(** C3, as stated, fails on the sample tree: the run produces four
    Documents, and the first has no key [source_path] but a key [source],
    so its key set is not the documented one. *)
Lemma C3_counterexample :
  let docs :=
    Ingest.documents (snd (Ingest.main Sample.ingest_env Ingest.init)) in
  List.length docs = 4%nat
  /\ exists d,
       head docs = Some d
       /\ metadata d !! "source_path" = None
       /\ metadata d !! "source" = Some (PStr "atomics/T1003/T1003.yaml")
       /\ dom (metadata d) <> Shape.documented_metadata_keys.
Proof.
  split; [reflexivity|].
  eexists. split; [vm_compute; reflexivity|].
  split; [vm_compute; reflexivity|].
  split; [vm_compute; reflexivity|].
  intros E.
  assert (H : "source_path" ∈ Shape.documented_metadata_keys)
    by (unfold Shape.documented_metadata_keys; set_solver).
  rewrite <- E in H. apply elem_of_dom in H as [x H].
  vm_compute in H. discriminate H.
Qed.

(** C3 at the second Document of the sample run, the one built from the
    empty test record of T1003.yaml. *)
Lemma C3_metadata_keys_witness :
  In (Shape.document_of (PStr "T1003") (PStr "OS Credential Dumping")
        "atomics/T1003/T1003.yaml" [])
     (Ingest.documents (snd (Ingest.main Sample.ingest_env Ingest.init)))
  /\ dom (metadata (Shape.document_of (PStr "T1003")
                      (PStr "OS Credential Dumping")
                      "atomics/T1003/T1003.yaml" []))
     = Shape.metadata_keys.
Proof.
  assert (H : In (Shape.document_of (PStr "T1003")
                    (PStr "OS Credential Dumping")
                    "atomics/T1003/T1003.yaml" [])
                 (Ingest.documents
                    (snd (Ingest.main Sample.ingest_env Ingest.init))))
    by (vm_compute; right; left; reflexivity).
  split; [exact H|]. exact (C3_metadata_keys Sample.ingest_env _ H).
Defined.

Lemma join_string_list sep l :
  forallb Shape.is_string l = true ->
  Py.join sep (PList l) = Ok (Str.join sep (Shape.strings l)).
Proof.
  intros H. unfold Py.join. cbn [Py.iter rbind].
  now rewrite (join_strings_all_strs l H).
Qed.

(** On an atomic test record the builder returns the Document that the
    data model describes. *)
Lemma build_document_atomic_test python tid tname path t :
  Shape.atomic_test (PDict t) = true ->
  Ingest.build_document python tid tname path (PDict t)
  = Ok (Shape.document_of tid tname path t).
Proof.
  unfold Shape.atomic_test, Ingest.build_document, Shape.document_of.
  unfold Shape.name_of, Shape.description_of, Shape.platforms_of,
    Shape.executor_name_of, Shape.command_of, Shape.executor_of.
  intros H. apply andb_prop in H as [H Hexec].
  apply andb_prop in H as [Hdesc Hplat].
  py_eval.
  destruct (Py.lookup "description" t) as [[]|]; try discriminate Hdesc;
    destruct (Py.lookup "supported_platforms" t) as [[| | | | |l|]|];
    try discriminate Hplat;
    destruct (Py.lookup "executor" t) as [[| | | | | |e]|];
    try discriminate Hexec; py_eval.
  all: try (destruct l as [|p ps];
            [py_eval | rewrite (join_string_list _ _ Hplat); py_eval]).
  all: try (cbn [Py.lookup]).
  all: try (cbn in Hexec; destruct (Py.lookup "command" e) as [[]|];
            try discriminate Hexec; py_eval).
  all: reflexivity.
Qed.

(** C8: on every atomic test record, whichever optional fields are missing,
    the Document Builder returns a Document and raises nothing; the name is
    the one given or the placeholder [Unnamed Test], the description is the
    one given with the blanks at both ends stripped or the empty text, the
    platforms are joined with [", "] or are the text [unknown] when the list
    is missing or empty, the executor name is the one given or [unknown],
    and the command is the one given or the empty text. *)
Theorem C8_builder_defaults (python : Py.version)
    (technique_id technique_name : pyval)
    (file_path : string) (t : list (string * pyval)) :
  Shape.atomic_test (PDict t) = true ->
  exists doc,
    Ingest.build_document python technique_id technique_name file_path
      (PDict t) = Ok doc
    /\ page_content doc
       = Ingest.compose_content technique_id technique_name (Shape.name_of t)
           (Shape.platforms_of t) (Shape.description_of t)
           (PStr (Shape.command_of t))
    /\ metadata doc !! "test_name" = Some (Shape.name_of t)
    /\ metadata doc !! "platform" = Some (PStr (Shape.platforms_of t))
    /\ metadata doc !! "executor" = Some (Shape.executor_name_of t)
    /\ metadata doc !! "command"
       = Some (PStr (Str.take 1000 (Shape.command_of t)))
    /\ (Py.lookup "name" t = None -> Shape.name_of t = PStr "Unnamed Test")
    /\ (Py.lookup "description" t = None -> Shape.description_of t = "")
    /\ (forall s, Py.lookup "description" t = Some (PStr s) ->
                  Shape.description_of t = Str.strip s)
    /\ (Py.lookup "supported_platforms" t = None
        \/ Py.lookup "supported_platforms" t = Some (PList []) ->
        Shape.platforms_of t = "unknown")
    /\ (forall p ps,
          Py.lookup "supported_platforms" t = Some (PList (p :: ps)) ->
          Shape.platforms_of t = Str.join ", " (Shape.strings (p :: ps)))
    /\ (Py.lookup "executor" t = None ->
        Shape.executor_name_of t = PStr "unknown" /\ Shape.command_of t = "")
    /\ (forall e, Py.lookup "executor" t = Some (PDict e) ->
          (Py.lookup "name" e = None -> Shape.executor_name_of t = PStr "unknown")
          /\ (Py.lookup "command" e = None -> Shape.command_of t = "")).
Proof.
  intros H. exists (Shape.document_of technique_id technique_name file_path t).
  split; [now apply build_document_atomic_test|].
  split; [reflexivity|].
  do 4 (split; [reflexivity|]).
  unfold Shape.name_of, Shape.description_of, Shape.platforms_of,
    Shape.executor_name_of, Shape.command_of, Shape.executor_of.
  split; [now intros ->|].
  split; [now intros ->|].
  split; [now intros s ->|].
  split; [now intros [-> | ->]|].
  split; [now intros p ps ->|].
  split; [now intros ->|].
  intros e ->. split; now intros ->.
Qed.

(** C2: for every atomic test from which the builder makes a Document, with
    a command that is a text [c] of any length, the [command] of the
    metadata is the first 1000 characters of [c] (all of [c] when it is no
    longer), so at most 1000 characters long, while the content ends with
    the whole of [c]. *)
Theorem C2_command_truncated (python : Py.version)
    (technique_id technique_name : pyval)
    (file_path : string) (test : pyval) (doc : Document) (c : string) :
  Ingest.build_document python technique_id technique_name file_path test
  = Ok doc ->
  Shape.read_command test = Ok (PStr c) ->
  metadata doc !! "command" = Some (PStr (Str.take 1000 c))
  /\ (String.length (Str.take 1000 c) <= 1000)%nat
  /\ (exists cut, c = Str.take 1000 c +:+ cut)
  /\ ((String.length c <= 1000)%nat -> Str.take 1000 c = c)
  /\ exists before,
       page_content doc
       = before +:+ "Command: " +:+ c +:+ Str.nl +:+ Ingest.indent.
Proof.
  intros Hdoc Hc.
  apply build_document_inv in Hdoc
    as (test_name & platform_str & description & command & executor_name
        & command1000 & Hcmd & Hslice & _ & ->).
  rewrite Hc in Hcmd. injection Hcmd as <-.
  cbn [Py.slice_to] in Hslice. injection Hslice as <-.
  split; [reflexivity|]. split; [apply take_length|].
  split; [apply take_prefix|]. split; [apply take_all|].
  unfold Ingest.compose_content. cbn [Py.str page_content].
  exists (Str.nl +:+ Ingest.indent +:+ "Technique: " +:+ Py.str technique_id
          +:+ ": " +:+ Py.str technique_name +:+ Str.nl +:+ Ingest.indent
          +:+ "Test Name: " +:+ Py.str test_name +:+ Str.nl +:+ Ingest.indent
          +:+ "Platform: " +:+ platform_str +:+ Str.nl +:+ Ingest.indent
          +:+ "Description: " +:+ description +:+ Str.nl +:+ Ingest.indent).
  rewrite !append_assoc. reflexivity.
Qed.

(** C2 on a command of 1200 characters. *)
Lemma C2_command_truncated_witness :
  String.length Sample.long_command = 1200%nat
  /\ exists doc,
       Ingest.build_document Py.Since312 (PStr "T1059") (PStr "Scripting")
         "T1059.yaml" Sample.test_long = Ok doc
       /\ metadata doc !! "command"
          = Some (PStr (Str.take 1000 Sample.long_command))
       /\ (String.length (Str.take 1000 Sample.long_command) <= 1000)%nat
       /\ exists before,
            page_content doc
            = before +:+ "Command: " +:+ Sample.long_command +:+ Str.nl
                +:+ Ingest.indent.
Proof.
  split; [vm_compute; reflexivity|].
  eexists. split; [reflexivity|].
  destruct (C2_command_truncated Py.Since312 (PStr "T1059") (PStr "Scripting")
              "T1059.yaml" Sample.test_long _ Sample.long_command
              eq_refl eq_refl) as (Hm & Hlen & _ & _ & Hcontent).
  auto.
Defined.

(** A run of the loop over atomic test records adds one Document for each
    and raises nothing. *)
Lemma process_tests_atomic python tid tname path tests s :
  Forall (fun t => Shape.atomic_test t = true) tests ->
  exists s' new reports,
    for_each tests (Ingest.process_test python tid tname path) s = (Ok tt, s')
    /\ Ingest.documents s' = Ingest.documents s ++ new
    /\ List.length new = List.length tests
    /\ Ingest.log s' = Ingest.log s ++ reports
    /\ Forall only_progress reports.
Proof.
  intros H. revert s. induction H as [|test tests Ht _ IH]; intros s.
  - exists s, [], []. cbn. rewrite !app_nil_r. auto.
  - destruct test as [| | | | | |t]; try discriminate Ht.
    cbn [for_each]. unfold bind at 1. unfold Ingest.process_test at 1.
    rewrite (build_document_atomic_test python tid tname path t Ht).
    set (d := Shape.document_of tid tname path t).
    unfold bind, lift, Ingest.append_document, Ingest.incr_count, gets, modify.
    cbn [Ingest.documents Ingest.count Ingest.log].
    destruct (S (Ingest.count s) mod 100 =? 0)%nat.
    + cbn [Ingest.emit modify Ingest.documents Ingest.count Ingest.log].
      match goal with |- context [for_each tests _ ?s1] =>
        destruct (IH s1) as (s' & new & reports & E & Hd & Hn & Hl & Hr) end.
      exists s', (d :: new), (Ingest.PrintCollected (S (Ingest.count s)) :: reports).
      rewrite E, Hd, Hl. cbn. rewrite <- !app_assoc. cbn.
      repeat split; auto. constructor; [exact I | exact Hr].
    + cbn [ret].
      match goal with |- context [for_each tests _ ?s1] =>
        destruct (IH s1) as (s' & new & reports & E & Hd & Hn & Hl & Hr) end.
      exists s', (d :: new), reports.
      rewrite E, Hd, Hl. cbn. rewrite <- !app_assoc. cbn.
      repeat split; auto.
Qed.

Lemma get_absent d key dflt v :
  Py.lookup key d = None -> Py.get (PDict d) key dflt = Ok v -> v = dflt.
Proof. cbn. intros ->. congruence. Qed.

Lemma built_unknown_id python tname path test doc :
  Ingest.build_document python (PStr "Unknown") tname path test = Ok doc ->
  unknown_technique_id doc.
Proof.
  intros H. apply build_document_inv in H
    as (test_name & platform_str & description & command & executor_name
        & command1000 & _ & _ & _ & ->).
  split; [reflexivity|]. eexists. reflexivity.
Qed.

Lemma built_unknown_name python tid path test doc :
  Ingest.build_document python tid (PStr "Unknown") path test = Ok doc ->
  unknown_technique_name doc.
Proof.
  intros H. apply build_document_inv in H
    as (test_name & platform_str & description & command & executor_name
        & command1000 & _ & _ & _ & ->).
  split; [reflexivity|]. exists (Py.str tid). eexists. reflexivity.
Qed.

(** a file with a list of tests runs the builder over them *)
Lemma process_file_tests env root file d tests s :
  Str.endswith ".yaml" file && Str.startswith "T" file = true ->
  Ingest.load_yaml env (Ingest.path_join env root file) = Ok (PDict d) ->
  Py.lookup "atomic_tests" d = Some (PList tests) ->
  Ingest.process_file env root file s
  = try_except
      (for_each tests
         (Ingest.process_test (Ingest.python env)
            (default (PStr "Unknown") (Py.lookup "attack_technique" d))
            (default (PStr "Unknown") (Py.lookup "display_name" d))
            (Ingest.path_join env root file)))
      is_Exception
      (fun e => Ingest.emit (Ingest.PrintErrorProcessing file e)) s.
Proof.
  intros Hname Hload Htests.
  unfold Ingest.process_file. rewrite Hname.
  unfold try_except, bind, lift. rewrite Hload.
  unfold Ingest.process_data, Ingest.no_tests.
  destruct d as [|kv d']; [discriminate Htests|].
  cbn [Py.truthy Py.contains Py.get rbind negb bind lift].
  rewrite Htests. cbn [negb bind lift Py.iter]. reflexivity.
Qed.

(** C10: a definition file (its name passes the filter and it parses to a
    mapping) with a list of tests is processed, not skipped: its Documents
    are added to the list, and when the tests are atomic test records the
    file raises nothing, reports nothing but progress and adds one Document
    for each test.  When the technique identifier is missing, every Document
    added carries the text [Unknown] as [technique_id] in the metadata and in
    the content; the same holds of the technique name. *)
Theorem C10_unknown_technique (env : Ingest.Env) (root file : string)
    (d : list (string * pyval)) (tests : list pyval) (s : Ingest.state) :
  Str.endswith ".yaml" file && Str.startswith "T" file = true ->
  Ingest.load_yaml env (Ingest.path_join env root file) = Ok (PDict d) ->
  Py.lookup "atomic_tests" d = Some (PList tests) ->
  exists new,
    Ingest.documents (snd (Ingest.process_file env root file s))
    = Ingest.documents s ++ new
    /\ (Forall (fun t => Shape.atomic_test t = true) tests ->
        fst (Ingest.process_file env root file s) = Ok tt
        /\ List.length new = List.length tests
        /\ exists reports,
             Ingest.log (snd (Ingest.process_file env root file s))
             = Ingest.log s ++ reports
             /\ Forall only_progress reports)
    /\ (Py.lookup "attack_technique" d = None -> Forall unknown_technique_id new)
    /\ (Py.lookup "display_name" d = None -> Forall unknown_technique_name new).
Proof.
  intros Hname Hload Htests.
  set (P := fun doc =>
              (Py.lookup "attack_technique" d = None -> unknown_technique_id doc)
              /\ (Py.lookup "display_name" d = None -> unknown_technique_name doc)).
  destruct (added_process_file P (Ingest.documents s) env root file) with (s := s)
    as (new & E & HP).
  { intros data tid tname test doc Hd Hid Hnm Hb.
    rewrite Hload in Hd. injection Hd as <-. split; intros Habs.
    - apply (get_absent _ _ _ _ Habs) in Hid. subst tid.
      eapply built_unknown_id, Hb.
    - apply (get_absent _ _ _ _ Habs) in Hnm. subst tname.
      eapply built_unknown_name, Hb. }
  { apply added_nothing. }
  exists new. split; [exact E|]. split; [|split].
  - intros Hwf.
    rewrite (process_file_tests env root file d tests s Hname Hload Htests)
      in E |- *.
    destruct (process_tests_atomic (Ingest.python env)
                (default (PStr "Unknown") (Py.lookup "attack_technique" d))
                (default (PStr "Unknown") (Py.lookup "display_name" d))
                (Ingest.path_join env root file) tests s Hwf)
      as (s' & new' & reports & Erun & Hdocs & Hlen & Hlog & Hrep).
    unfold try_except in E |- *. rewrite Erun in E |- *. cbn [fst snd] in E |- *.
    rewrite Hdocs in E. apply app_inv_head in E. subst new'. eauto 6.
  - intros Habs. eapply Forall_impl; [exact HP|]. intros doc [H _]. auto.
  - intros Habs. eapply Forall_impl; [exact HP|]. intros doc [_ H]. auto.
Qed.






(** C10 on the sample file T1548.yaml, which has two tests and neither
    technique field. *)
Lemma C10_unknown_technique_witness :
  exists new,
    Ingest.documents
      (snd (Ingest.process_file Sample.ingest_env "atomics/T1548" "T1548.yaml"
              Ingest.init)) = new
    /\ List.length new = 2%nat
    /\ Forall unknown_technique_id new
    /\ Forall unknown_technique_name new.
Proof.
  destruct (C10_unknown_technique Sample.ingest_env "atomics/T1548"
              "T1548.yaml" Sample.definition_anonymous
              [Sample.test_full; PDict []] Ingest.init eq_refl eq_refl eq_refl)
    as (new & E & Hok & Hid & Hnm).
  exists new. split; [exact E|].
  split; [apply Hok; repeat constructor|].
  split; [apply Hid | apply Hnm]; reflexivity.
Defined.

(** C8 on the empty record: every optional field is missing. *)
Lemma C8_builder_defaults_witness :
  Shape.atomic_test (PDict []) = true
  /\ exists doc,
       Ingest.build_document Py.Since312 (PStr "T1003")
         (PStr "OS Credential Dumping") "atomics/T1003/T1003.yaml" (PDict [])
       = Ok doc
       /\ metadata doc !! "test_name" = Some (PStr "Unnamed Test")
       /\ metadata doc !! "platform" = Some (PStr "unknown")
       /\ metadata doc !! "executor" = Some (PStr "unknown")
       /\ metadata doc !! "command" = Some (PStr "").
Proof.
  split; [reflexivity|].
  destruct (C8_builder_defaults Py.Since312 (PStr "T1003")
              (PStr "OS Credential Dumping") "atomics/T1003/T1003.yaml" []
              eq_refl)
    as (doc & Hdoc & _ & Hn & Hp & He & Hc & _).
  exists doc. auto.
Defined.

(** * The query pipeline *)

Section QueryFacts.
Variable P : Query.event -> Prop.
Variable t0 : Query.trace.

Lemma added_event e : P e -> preserves (added_events P t0) (Query.emit e).
Proof.
  intros He. apply preserves_modify. intros t (new & -> & H).
  exists (new ++ [e]). rewrite app_assoc. split; [reflexivity|].
  apply Forall_app; auto.
Qed.

Lemma added_events_nothing : added_events P t0 t0.
Proof. exists []. split; [now rewrite app_nil_r | constructor]. Qed.
End QueryFacts.

(** Every stage of a turn on the alert [query] hands the rewriter and the
    analysis generator [query] itself. *)
Section TurnFacts.
Variable env : Query.Env.
Variable query : string.
Variable t0 : Query.trace.

Lemma about_rewrite_query :
  preserves (added_events (about_alert query) t0)
    (Query.rewrite_query env query).
Proof.
  unfold Query.rewrite_query. keep; apply added_event; exact I || reflexivity.
Qed.

Lemma about_retrieve q :
  preserves (added_events (about_alert query) t0)
    (Query.retrieve env q).
Proof. unfold Query.retrieve. keep. apply added_event. exact I. Qed.

Lemma about_generate_analysis i docs :
  preserves (added_events (about_alert query) t0)
    (Query.generate_analysis env query i docs).
Proof.
  unfold Query.generate_analysis. keep; apply added_event; exact I || reflexivity.
Qed.

Lemma about_print_results analysis docs :
  preserves (added_events (about_alert query) t0)
    (Query.print_results analysis docs).
Proof. unfold Query.print_results. keep; apply added_event; exact I. Qed.

Lemma about_turn :
  preserves (added_events (about_alert query) t0)
    (Query.turn env query).
Proof.
  unfold Query.turn. keep;
    auto using about_rewrite_query, about_retrieve, about_generate_analysis,
      about_print_results.
  apply added_event. exact I.
Qed.

Lemma about_guarded_turn :
  preserves (added_events (about_alert query) t0)
    (try_except (Query.turn env query) is_Exception
       (fun e => Query.emit (Query.PrintErrorDuringAnalysis e))).
Proof. keep; [apply about_turn | apply added_event; exact I]. Qed.
End TurnFacts.

Lemma parse_rewrite_fallback env query answer :
  Query.json_loads env answer = Raise JSONDecodeError ->
  Query.parse_rewrite env query answer = Ok (PStr query, PDict []).
Proof. intros H. unfold Query.parse_rewrite. now rewrite H. Qed.

(** step 1, case by case *)
Lemma rewrite_query_run env query t :
  Query.rewrite_query env query t
  = let t1 := t ++ [Query.PrintStep1; Query.CallRewriter query] in
    match Query.rewriter_invoke env query with
    | Raise e => (Raise e, t1)
    | Ok answer =>
        match Query.parse_rewrite env query answer with
        | Raise e => (Raise e, t1)
        | Ok rewritten =>
            (Ok rewritten,
             t1 ++ Query.PrintEnhancedQuery (fst rewritten)
                :: (if Py.truthy (snd rewritten)
                    then [Query.PrintExtractedIocs (snd rewritten)] else []))
        end
    end.
Proof.
  unfold Query.rewrite_query, bind, Query.emit, modify, lift, ret.
  cbn zeta. rewrite <- app_assoc. cbn [app].
  destruct (Query.rewriter_invoke env query) as [answer|e]; [|reflexivity].
  destruct (Query.parse_rewrite env query answer) as [rw|e]; [|reflexivity].
  destruct (Py.truthy (snd rw)); rewrite <- ?app_assoc; reflexivity.
Qed.

(** running a program step by step *)
Lemma run_emit {A} e (k : unit -> prog Query.trace A) t :
  bind (Query.emit e) k t = k tt (t ++ [e]).
Proof. reflexivity. Qed.

Lemma run_lift_ok {S A B} (a : A) (k : A -> prog S B) s :
  bind (lift (Ok a)) k s = k a s.
Proof. reflexivity. Qed.

Lemma run_lift_raise {S A B} e (k : A -> prog S B) s :
  bind (lift (Raise e)) k s = (Raise e, s).
Proof. reflexivity. Qed.

Lemma run_assoc {S A B C} (m : prog S A) (f : A -> prog S B)
    (g : B -> prog S C) s :
  bind (bind m f) g s = bind m (fun x => bind (f x) g) s.
Proof. unfold bind. destruct (m s) as [[a|e] s']; reflexivity. Qed.

Lemma guarded_trace (p : prog Query.trace unit) t :
  snd (try_except p is_Exception
         (fun e => Query.emit (Query.PrintErrorDuringAnalysis e)) t)
  = guard_trace (fst (p t)) (snd (p t)).
Proof.
  unfold try_except, guard_trace. destruct (p t) as [[a|e] t']; [reflexivity|].
  cbn [fst snd]. destruct (is_Exception e); reflexivity.
Qed.

Lemma guard_trace_added P t0 r t :
  (forall e, P (Query.PrintErrorDuringAnalysis e)) ->
  added_events P t0 t -> added_events P t0 (guard_trace r t).
Proof.
  intros HP H. destruct r as [a|e]; [exact H|]. cbn.
  destruct (is_Exception e); [|exact H].
  destruct H as (new & -> & H). exists (new ++ [Query.PrintErrorDuringAnalysis e]).
  rewrite app_assoc. split; [reflexivity|]. apply Forall_app; auto.
Qed.

(** the events of a guarded turn *)
Lemma guarded_turn_events env query t :
  exists events,
    snd (try_except (Query.turn env query) is_Exception
           (fun e => Query.emit (Query.PrintErrorDuringAnalysis e)) t)
    = t ++ Query.PrintStep1 :: Query.CallRewriter query :: events
    /\ Forall (about_alert query) events
    /\ forall answer,
         Query.rewriter_invoke env query = Ok answer ->
         Query.json_loads env answer = Raise JSONDecodeError ->
         exists events',
           events = Query.PrintEnhancedQuery (PStr query) :: Query.PrintStep2
                    :: Query.CallSearch (PStr query) 4 :: events'.
Proof.
  rewrite guarded_trace.
  set (t1 := t ++ [Query.PrintStep1; Query.CallRewriter query]).
  assert (Hshape : forall events, t1 ++ events
                   = t ++ Query.PrintStep1 :: Query.CallRewriter query :: events).
  { intros events. unfold t1. now rewrite <- app_assoc. }
  assert (Hguard : forall r t', added_events (about_alert query) t1 t' ->
            exists events, guard_trace r t'
              = t ++ Query.PrintStep1 :: Query.CallRewriter query :: events
              /\ Forall (about_alert query) events).
  { intros r t' H.
    apply (guard_trace_added _ _ r) in H as (new & -> & H); [|intros; exact I].
    exists new. now rewrite Hshape. }
  set (run := Query.turn env query t).
  assert (Erun : run = Query.turn env query t) by reflexivity. clearbody run.
  unfold Query.turn, bind at 1 in Erun. rewrite rewrite_query_run in Erun.
  fold t1 in Erun. cbn zeta in Erun.
  destruct (Query.rewriter_invoke env query) as [answer|e] eqn:Hanswer.
  2:{ subst run. cbn [fst snd].
      destruct (Hguard (Raise e) t1 (added_events_nothing _ _)) as (ev & E & H).
      exists ev. split; [exact E|]. split; [exact H|]. discriminate. }
  destruct (Query.parse_rewrite env query answer) as [rw|e] eqn:Hparse.
  2:{ subst run. cbn [fst snd].
      destruct (Hguard (Raise e) t1 (added_events_nothing _ _)) as (ev & E & H).
      exists ev. split; [exact E|]. split; [exact H|]. intros a [= <-] Hjson.
      rewrite (parse_rewrite_fallback _ _ _ Hjson) in Hparse. discriminate. }
  rewrite run_emit in Erun. unfold Query.retrieve in Erun.
  rewrite run_assoc, run_emit in Erun.
  set (shown := Query.PrintEnhancedQuery rw.1
                :: (if Py.truthy rw.2 then [Query.PrintExtractedIocs rw.2] else [])).
  set (t2 := ((t1 ++ shown) ++ [Query.PrintStep2]) ++ [Query.CallSearch rw.1 4]).
  fold shown in Erun. fold t2 in Erun.
  match type of Erun with _ = ?p t2 =>
    assert (Hp : preserves (added_events (about_alert query) t2) p)
  end.
  { keep; auto using about_generate_analysis, about_print_results. }
  specialize (Hp t2 (added_events_nothing _ _)). rewrite <- Erun in Hp.
  destruct run as [r t3]. cbn [fst snd] in Hp |- *.
  apply (guard_trace_added _ _ r) in Hp as (new & E & Hnew); [|intros; exact I].
  exists (shown ++ Query.PrintStep2 :: Query.CallSearch rw.1 4 :: new).
  rewrite E. unfold t2. rewrite <- Hshape, <- !app_assoc. cbn [app].
  split; [reflexivity|]. split.
  - apply Forall_app. split.
    + unfold shown. destruct (Py.truthy rw.2); repeat constructor.
    + repeat constructor. exact Hnew.
  - intros a [= <-] Hjson.
    rewrite (parse_rewrite_fallback _ _ _ Hjson) in Hparse.
    injection Hparse as <-. unfold shown. cbn. eauto.
Qed.

(** C1, amended: for every answer of the rewriter that [json.loads] rejects
    with a JSONDecodeError, the rewrite is a no-op: the enhanced query is
    the alert text itself and the indicator mapping is empty; the first step
    of the turn then ends normally, showing the alert as the enhanced query
    and no indicators, and raises nothing. *)
Theorem C1_rewrite_fallback (env : Query.Env) (query answer : string) :
  Query.json_loads env answer = Raise JSONDecodeError ->
  Query.parse_rewrite env query answer = Ok (PStr query, PDict [])
  /\ forall t,
       Query.rewriter_invoke env query = Ok answer ->
       Query.rewrite_query env query t
       = (Ok (PStr query, PDict []),
          t ++ [Query.PrintStep1; Query.CallRewriter query;
                Query.PrintEnhancedQuery (PStr query)]).
Proof.
  intros Hjson. split; [now apply parse_rewrite_fallback|].
  intros t Hanswer. rewrite rewrite_query_run. cbn zeta.
  rewrite Hanswer, (parse_rewrite_fallback _ _ _ Hjson). cbn.
  now rewrite <- app_assoc.
Qed.

(** C1 (amended) on an answer in plain words. *)
Lemma C1_rewrite_fallback_witness :
  Query.json_loads (Sample.query_env Sample.not_json) Sample.not_json
  = Raise JSONDecodeError
  /\ Query.parse_rewrite (Sample.query_env Sample.not_json)
       "ssh brute force" Sample.not_json
     = Ok (PStr "ssh brute force", PDict []).
Proof.
  split; [reflexivity|].
  apply (C1_rewrite_fallback (Sample.query_env Sample.not_json)
           "ssh brute force" Sample.not_json eq_refl).
Defined.

(** C1, as stated, fails on the answer "[]": it is JSON, and not a
    key-value object.  [json.loads] returns the empty list, [.get] on a list
    raises AttributeError, which [except json.JSONDecodeError] does not
    catch: the fallback is not taken and the turn ends in the error report
    of line 196. *)
Lemma C1_counterexample :
  Query.json_loads (Sample.query_env Sample.json_array) Sample.json_array
  = Ok (PList [])
  /\ Query.parse_rewrite (Sample.query_env Sample.json_array)
       "ssh brute force" Sample.json_array
     = Raise AttributeError
  /\ Query.iteration (Sample.query_env Sample.json_array) "ssh brute force" []
     = (Ok Query.Continue,
        [Query.Prompt; Query.PrintStep1; Query.CallRewriter "ssh brute force";
         Query.PrintErrorDuringAnalysis AttributeError]).
Proof. repeat split. Qed.

(** C5: when the API key is set and loading the persisted index raises an
    exception, [main] reports the failure and returns.  The trace is the
    same whatever would be typed: no prompt, no call of the rewriter, of the
    search or of the analysis generator, and no index stands in for the one
    that failed to load. *)
Theorem C5_index_load_failure (env : Query.Env) (inputs : list string)
    (api_key : string) (e : exn) :
  Query.getenv_GROQ_API_KEY env = Some api_key ->
  api_key <> "" ->
  Query.embeddings_init env = Ok tt ->
  Query.load_local env Query.INDEX_FOLDER = Raise e ->
  is_Exception e = true ->
  Query.main env inputs []
  = (Ok tt,
     [Query.PrintBanner; Query.PrintLoadedKey (Query.mask (Str.strip api_key));
      Query.PrintLoadingIndex; Query.PrintCpuMode;
      Query.CallLoadLocal Query.INDEX_FOLDER; Query.PrintLoadFailed e]).
Proof.
  intros Hkey Hne Hemb Hload He.
  unfold Query.main. rewrite run_emit, Hkey.
  apply truthy_str in Hne. rewrite Hne. cbn [negb].
  rewrite !run_emit. unfold bind at 1, try_except.
  rewrite Hemb, run_lift_ok, !run_emit, Hload, run_lift_raise, He.
  reflexivity.
Qed.

(** C5 in the sample environment whose index cannot be loaded. *)
Lemma C5_index_load_failure_witness :
  Query.main Sample.query_env_no_index ["ssh brute force"; "exit"] []
  = (Ok tt,
     [Query.PrintBanner; Query.PrintLoadedKey "gsk_**********6789";
      Query.PrintLoadingIndex; Query.PrintCpuMode;
      Query.CallLoadLocal "faiss_index";
      Query.PrintLoadFailed (OtherException "RuntimeError")]).
Proof.
  apply (C5_index_load_failure Sample.query_env_no_index
           ["ssh brute force"; "exit"] "gsk_0123456789"
           (OtherException "RuntimeError")); try reflexivity.
  discriminate.
Defined.

Lemma populated_get d key :
  Py.truthy (default PNone (Py.lookup key d))
  = match Shape.populated d key with Some _ => true | None => false end.
Proof.
  unfold Shape.populated. destruct (Py.lookup key d) as [v|]; [|reflexivity].
  cbn. destruct (Py.truthy v); reflexivity.
Qed.

Lemma populated_lookup d key v :
  Shape.populated d key = Some v -> Py.lookup key d = Some v.
Proof.
  unfold Shape.populated. destruct (Py.lookup key d) as [x|]; [|discriminate].
  destruct (Py.truthy x); [congruence | discriminate].
Qed.

Lemma line_not_empty acc label v :
  Py.truthy (PStr (acc +:+ Shape.indicator_line label v)) = true.
Proof.
  apply truthy_str. intros H. apply append_eq_empty in H as [_ H].
  discriminate H.
Qed.

Ltac not_empty :=
  match goal with
  | |- context [Py.truthy (PStr ?x)] =>
      replace (Py.truthy (PStr x)) with true
        by (symmetry; apply truthy_str;
            let H := fresh in
            intros H; repeat (apply append_eq_empty in H as [? H]);
            discriminate H)
  end.

Lemma render_ioc_details_listing d :
  Query.render_ioc_details (PDict d) = Ok (Str.concat (Shape.listing d)).
Proof.
  unfold Query.render_ioc_details, Shape.listing, Shape.indicator_lines.
  cbn [Py.get rbind omap list_omap Shape.indicator_fields fst snd].
  change (match Py.lookup "source_ip" d with Some x => x | None => PNone end)
    with (default PNone (Py.lookup "source_ip" d)).
  change (match Py.lookup "dest_ip" d with Some x => x | None => PNone end)
    with (default PNone (Py.lookup "dest_ip" d)).
  change (match Py.lookup "protocol" d with Some x => x | None => PNone end)
    with (default PNone (Py.lookup "protocol" d)).
  rewrite !populated_get.
  destruct (Shape.populated d "source_ip") as [a|] eqn:Ea;
    destruct (Shape.populated d "dest_ip") as [b|] eqn:Eb;
    destruct (Shape.populated d "protocol") as [c|] eqn:Ec;
    cbn [Py.getitem rbind];
    rewrite ?(populated_lookup _ _ _ Ea), ?(populated_lookup _ _ _ Eb),
      ?(populated_lookup _ _ _ Ec);
    cbn [rbind fmap option_fmap option_map mbind option_bind app];
    unfold Shape.indicator_line, Str.concat;
    try not_empty; cbn [negb Py.truthy String.eqb];
    rewrite ?append_assoc, ?append_empty_r; reflexivity.
Qed.

Lemma indicator_line_label l1 l2 v1 v2 :
  In l1 ["Source IP"; "Destination IP"; "Protocol"] ->
  In l2 ["Source IP"; "Destination IP"; "Protocol"] ->
  Shape.indicator_line l1 v1 = Shape.indicator_line l2 v2 -> l1 = l2.
Proof.
  cbn [In]. intros H1 H2.
  repeat match goal with H : _ \/ _ |- _ => destruct H | H : False |- _ => destruct H end;
    subst; intros E; try reflexivity; discriminate E.
Qed.

Lemma indicator_line_not_none l v :
  In l ["Source IP"; "Destination IP"; "Protocol"] ->
  Shape.indicator_line l v <> Shape.no_indicators_line.
Proof.
  cbn [In]. intros H.
  repeat match goal with H : _ \/ _ |- _ => destruct H | H : False |- _ => destruct H end;
    subst; intros E; discriminate E.
Qed.

(** C7: for every indicator mapping the rendering succeeds and is the
    concatenation of [Shape.listing]: one line for each populated field
    among source IP, destination IP and protocol (in this order), no line
    for a field that is not populated, as many lines as populated fields,
    and the single line that says no indicators were extracted when no field
    is populated. *)
Theorem C7_indicator_listing (d : list (string * pyval)) :
  Query.render_ioc_details (PDict d) = Ok (Str.concat (Shape.listing d))
  /\ (forall key label v,
        In (key, label) Shape.indicator_fields ->
        Shape.populated d key = Some v ->
        In (Shape.indicator_line label v) (Shape.listing d))
  /\ (forall key label v,
        In (key, label) Shape.indicator_fields ->
        Shape.populated d key = None ->
        ~ In (Shape.indicator_line label v) (Shape.listing d))
  /\ List.length (Shape.listing d) = Nat.max 1 (Shape.populated_count d)
  /\ (Shape.populated_count d = 0%nat ->
      Shape.listing d = [Shape.no_indicators_line]).
Proof.
  split; [apply render_ioc_details_listing|].
  unfold Shape.listing, Shape.indicator_lines, Shape.populated_count,
    Shape.is_populated.
  cbn [omap list_omap Shape.indicator_fields fst snd List.filter In].
  destruct (Shape.populated d "source_ip") as [a|] eqn:Ea;
    destruct (Shape.populated d "dest_ip") as [b|] eqn:Eb;
    destruct (Shape.populated d "protocol") as [c|] eqn:Ec;
    cbn [fmap option_fmap option_map List.filter List.length Nat.max In].
  all: split;
    [ intros key label v [E|[E|[E|[]]]] Hp; injection E as <- <-;
      rewrite Hp in *; try discriminate;
      repeat match goal with H : Some _ = Some _ |- _ =>
               injection H as <- end; auto |].
  all: split;
    [ intros key label v [E|[E|[E|[]]]] Hp; injection E as <- <-;
      rewrite Hp in *; try discriminate; intros Hin;
      repeat match goal with
             | H : _ \/ _ |- _ => destruct H
             | H : False |- _ => destruct H
             | H : Shape.indicator_line _ _ = Shape.no_indicators_line |- _ =>
                 apply indicator_line_not_none in H; [destruct H | cbn; auto]
             | H : Shape.no_indicators_line = Shape.indicator_line _ _ |- _ =>
                 symmetry in H
             | H : Shape.indicator_line _ _ = Shape.indicator_line _ _ |- _ =>
                 apply indicator_line_label in H;
                 [discriminate H | cbn; auto | cbn; auto]
             end |].
  all: split; [reflexivity|]; try discriminate; reflexivity.
Qed.

(** C7 on a mapping in which only the protocol is populated (the source
    address is null): one line, the one of the protocol. *)
Lemma C7_indicator_listing_witness :
  Query.render_ioc_details (PDict Sample.indicators_protocol_only)
  = Ok ("- Protocol: TCP" +:+ Str.nl)
  /\ Shape.listing Sample.indicators_protocol_only
     = [Shape.indicator_line "Protocol" (PStr "TCP")].
Proof.
  destruct (C7_indicator_listing Sample.indicators_protocol_only) as [H _].
  split; [exact H | reflexivity].
Defined.

(** * The index *)

(** The ranking of the modelled index is a sorted permutation of what was
    indexed, for any similarity order that is total and transitive. *)
Section IndexFacts.
Context {vector : Type}.
Variable embed : string -> vector.
Variable closer : vector -> vector -> vector -> bool.
Hypothesis closer_total :
  forall q a b, closer q a b = true \/ closer q b a = true.
Hypothesis closer_trans :
  forall q a b c,
    closer q a b = true -> closer q b c = true -> closer q a c = true.

Lemma insert_perm q x l : Permutation (Index.insert closer q x l) (x :: l).
Proof.
  induction l as [|y l IH]; cbn; [reflexivity|].
  destruct (closer q (fst x) (fst y)); [reflexivity|].
  rewrite IH. apply perm_swap.
Qed.

Lemma ranked_perm q idx : Permutation (Index.ranked closer q idx) idx.
Proof.
  induction idx as [|x idx IH]; cbn; [reflexivity|].
  rewrite insert_perm. now constructor.
Qed.

Lemma insert_sorted q x l :
  StronglySorted (entry_le closer q) l -> StronglySorted (entry_le closer q) (Index.insert closer q x l).
Proof.
  induction 1 as [|y l Hs IH Hy]; cbn.
  - repeat constructor.
  - destruct (closer q (fst x) (fst y)) eqn:E.
    + constructor; [now constructor|]. constructor; [exact E|].
      eapply Forall_impl; [exact Hy|]. intros z Hz.
      unfold entry_le in *. eauto.
    + constructor; [exact IH|].
      assert (Hyx : entry_le closer q y x).
      { unfold entry_le. destruct (closer_total q (fst y) (fst x)); congruence. }
      rewrite Forall_forall in Hy |- *. intros z Hz.
      apply list_elem_of_In in Hz.
      apply (Permutation_in _ (insert_perm q x l)) in Hz as [<- | Hz]; auto.
      apply Hy. now apply list_elem_of_In.
Qed.

Lemma ranked_sorted q idx : StronglySorted (entry_le closer q) (Index.ranked closer q idx).
Proof.
  induction idx as [|x idx IH]; cbn; [constructor | now apply insert_sorted].
Qed.

Lemma firstn_sorted {A} (R : A -> A -> Prop) k l :
  StronglySorted R l -> StronglySorted R (firstn k l).
Proof.
  intros H. revert k. induction H as [|x l Hs IH Hx]; intros [|k]; cbn;
    try constructor; auto.
  now apply Forall_take.
Qed.

Lemma ranked_vectors q docs :
  Forall (fun x => fst x = embed (page_content (snd x)))
    (Index.ranked closer q (Index.build embed docs)).
Proof.
  rewrite Forall_forall. intros x Hx. apply list_elem_of_In in Hx.
  apply (Permutation_in _ (ranked_perm q _)) in Hx.
  unfold Index.build in Hx. apply in_map_iff in Hx as (d & <- & _).
  reflexivity.
Qed.

Lemma sorted_documents text l :
  Forall (fun x => fst x = embed (page_content (snd x))) l ->
  StronglySorted (entry_le closer (embed text)) l ->
  StronglySorted (Index.before embed closer text) (map snd l).
Proof.
  intros Hv H. induction H as [|x l Hs IH Hx]; cbn; [constructor|].
  apply Forall_cons in Hv as [Ex Hv]. constructor; [now apply IH|].
  apply Forall_map. rewrite Forall_forall in Hx, Hv |- *.
  intros y Hy. unfold Index.before. rewrite <- Ex, <- (Hv y Hy).
  now apply Hx.
Qed.

Lemma search_sorted docs text k :
  StronglySorted (Index.before embed closer text)
    (Index.search embed closer (Index.build embed docs) text k).
Proof.
  unfold Index.search. apply sorted_documents.
  - apply Forall_take, ranked_vectors.
  - apply firstn_sorted, ranked_sorted.
Qed.

Lemma search_all docs text k :
  (List.length docs <= k)%nat ->
  Permutation (Index.search embed closer (Index.build embed docs) text k) docs.
Proof.
  intros Hk. unfold Index.search.
  rewrite firstn_all2.
  - rewrite (Permutation_map snd (ranked_perm _ _)).
    unfold Index.build. rewrite map_map. cbn. now rewrite map_id.
  - rewrite (Permutation_length (ranked_perm _ _)).
    unfold Index.build. now rewrite length_map.
Qed.

(** C6: the retriever calls the similarity search once, with the query it
    was given and k = 4, and returns what the search returned, unchanged.
    Over the modelled index the result is ordered by similarity, most
    similar first, and when fewer than 4 documents are indexed it holds
    exactly the indexed documents, with no error. *)
Theorem C6_retriever (docs : list Document) (env : Query.Env)
    (text : string) (t : Query.trace) :
  (forall q k,
      Query.similarity_search env (PStr q) k
      = Ok (Index.search embed closer (Index.build embed docs) q k)) ->
  let found := Index.search embed closer (Index.build embed docs) text 4 in
  (forall q,
      Query.retrieve env q t
      = (Query.similarity_search env q 4, t ++ [Query.CallSearch q 4]))
  /\ Query.retrieve env (PStr text) t
     = (Ok found, t ++ [Query.CallSearch (PStr text) 4])
  /\ StronglySorted (Index.before embed closer text) found
  /\ ((List.length docs < 4)%nat -> Permutation found docs).
Proof.
  intros Henv found.
  assert (Hcall : forall q,
             Query.retrieve env q t
             = (Query.similarity_search env q 4, t ++ [Query.CallSearch q 4])).
  { intros q. unfold Query.retrieve. now rewrite run_emit. }
  split; [exact Hcall|]. split; [|split].
  - now rewrite Hcall, Henv.
  - apply search_sorted.
  - intros Hk. apply search_all. lia.
Qed.
End IndexFacts.

Lemma sample_closer_total q a b :
  Sample.closer q a b = true \/ Sample.closer q b a = true.
Proof.
  unfold Sample.closer.
  destruct (Nat.leb_spec (if (q <=? a)%nat then a - q else q - a)%nat
                         (if (q <=? b)%nat then b - q else q - b)%nat) as [H|H];
    [now left | right]. apply Nat.leb_le. lia.
Qed.

Lemma sample_closer_trans q a b c :
  Sample.closer q a b = true -> Sample.closer q b c = true ->
  Sample.closer q a c = true.
Proof.
  unfold Sample.closer. rewrite !Nat.leb_le. lia.
Qed.

(** C6 on the sample index of two documents. *)
Lemma C6_retriever_witness :
  Query.retrieve (Sample.query_env Sample.not_json) (PStr "ssh brute force") []
  = (Ok [Sample.doc_a; Sample.doc_b],
     [Query.CallSearch (PStr "ssh brute force") 4])
  /\ Permutation [Sample.doc_a; Sample.doc_b] [Sample.doc_a; Sample.doc_b].
Proof.
  destruct (C6_retriever Sample.embed Sample.closer sample_closer_total
              sample_closer_trans [Sample.doc_a; Sample.doc_b]
              (Sample.query_env Sample.not_json) "ssh brute force" [])
    as (_ & Hcall & _ & Hall).
  - reflexivity.
  - split; [exact Hcall|]. apply Hall. cbn. lia.
Defined.

(** * The sample runs *)

Example strip_example : Str.strip "  ssh  scan  " = "ssh  scan".
Proof. reflexivity. Qed.

Example exit_words :
  map Query.is_exit ["exit"; "QUIT"; "Q"; "quit now"; ""]
  = [true; true; true; false; false].
Proof. reflexivity. Qed.

(** The ingestion of the sample tree: one failure is reported, four
    Documents are handed to the index, and the index is saved. *)
Example sample_ingestion :
  let run := Ingest.main Sample.ingest_env Ingest.init in
  fst run = Ok tt
  /\ Ingest.count (snd run) = 4%nat
  /\ map page_content (Ingest.documents (snd run))
     = [Ingest.compose_content (PStr "T1003") (PStr "OS Credential Dumping")
          (PStr "Dump LSASS") "windows, linux" "Dumps the memory of lsass."
          (PStr "procdump -ma lsass.exe");
        Ingest.compose_content (PStr "T1003") (PStr "OS Credential Dumping")
          (PStr "Unnamed Test") "unknown" "" (PStr "");
        Ingest.compose_content (PStr "Unknown") (PStr "Unknown")
          (PStr "Dump LSASS") "windows, linux" "Dumps the memory of lsass."
          (PStr "procdump -ma lsass.exe");
        Ingest.compose_content (PStr "Unknown") (PStr "Unknown")
          (PStr "Unnamed Test") "unknown" "" (PStr "")]
  /\ exists docs,
       Ingest.log (snd run)
       = [Ingest.PrintStarting; Ingest.PrintFaissImported "1.8.0";
          Ingest.PrintCpuMode; Ingest.PrintScanning "atomics";
          Ingest.PrintErrorProcessing "Tbroken.yaml"
            (OtherException "yaml.scanner.ScannerError");
          Ingest.PrintTotal 4; Ingest.PrintInitEmbeddings;
          Ingest.PrintBuilding; Ingest.CallFromDocuments docs;
          Ingest.PrintSaving "faiss_index"; Ingest.CallSaveLocal "faiss_index";
          Ingest.PrintSuccess].
Proof.
  cbv zeta. split; [reflexivity|]. split; [reflexivity|].
  split; [vm_compute; reflexivity|]. eexists. vm_compute. reflexivity.
Qed.

(** A session of three lines: an alert (the rewriter does not answer in
    JSON), a line of blanks, and the word that ends the loop. *)
Example sample_session :
  Query.main (Sample.query_env Sample.not_json)
    ["  ssh brute force from 10.0.0.1  "; "   "; "EXIT"] []
  = (Ok tt,
     [Query.PrintBanner; Query.PrintLoadedKey "gsk_**********6789";
      Query.PrintLoadingIndex; Query.PrintCpuMode;
      Query.CallLoadLocal "faiss_index"; Query.PrintIndexLoaded;
      Query.PrintConnecting "llama-3.3-70b-versatile"; Query.PrintReady;
      Query.Prompt; Query.PrintStep1;
      Query.CallRewriter "ssh brute force from 10.0.0.1";
      Query.PrintEnhancedQuery (PStr "ssh brute force from 10.0.0.1");
      Query.PrintStep2;
      Query.CallSearch (PStr "ssh brute force from 10.0.0.1") 4;
      Query.PrintStep3;
      Query.CallAnalyst
        (Query.mkAnalystArgs
           ("[Source 1] lsass memory credential dumping" +:+ Str.nl +:+ Str.nl
            +:+ "[Source 2] ssh brute force")
           "ssh brute force from 10.0.0.1" (PDict [])
           ("- No IOCs extracted (clean query)" +:+ Str.nl));
      Query.PrintAnalysis "analysis"; Query.PrintSourcesHeader;
      Query.PrintSource 1 (PStr "OS Credential Dumping") (PStr "windows");
      Query.PrintSource 2 (PStr "Brute Force") (PStr "linux");
      Query.PrintSourcesEnd; Query.Prompt; Query.Prompt;
      Query.PrintShuttingDown]).
Proof. vm_compute. reflexivity. Qed.

(** * More about the ingestion *)

Section Outcomes.
Context {S : Type}.
Variable Q : exn -> Prop.

Lemma raises_ret {A} (a : A) : raises_only (S := S) Q (ret a).
Proof. intros s e H. discriminate H. Qed.

Lemma raises_modify (f : S -> S) : raises_only Q (modify f).
Proof. intros s e H. discriminate H. Qed.

Lemma raises_bind {A B} (m : prog S A) (k : A -> prog S B) :
  raises_only Q m -> (forall a, raises_only Q (k a)) -> raises_only Q (bind m k).
Proof.
  intros Hm Hk s e. unfold bind. specialize (Hm s).
  destruct (m s) as [[a|x] s']; cbn in *; [apply Hk|].
  intros [= <-]. now apply Hm.
Qed.

Lemma raises_for_each {A} (l : list A) (body : A -> prog S unit) :
  (forall x, raises_only Q (body x)) -> raises_only Q (for_each l body).
Proof.
  intros Hb. induction l as [|x l IH]; cbn [for_each].
  - apply raises_ret.
  - apply raises_bind; [apply Hb | intros _; exact IH].
Qed.

Lemma raises_try_except {A} (body : prog S A) catches handler :
  (forall e, catches e = false -> Q e) ->
  (forall e, raises_only Q (handler e)) ->
  raises_only Q (try_except body catches handler).
Proof.
  intros Hc Hh s e. unfold try_except.
  destruct (body s) as [[a|x] s']; [discriminate|].
  destruct (catches x) eqn:E; [apply Hh|]. cbn. intros [= <-]. now apply Hc.
Qed.
End Outcomes.

Lemma process_file_raises env root file :
  raises_only not_caught (Ingest.process_file env root file).
Proof.
  unfold Ingest.process_file. destruct (_ && _); [|apply raises_ret].
  apply raises_try_except; [intros e H; exact H|].
  intros e. apply raises_modify.
Qed.

Lemma walk_raises env dirs : raises_only not_caught (Ingest.walk env dirs).
Proof.
  unfold Ingest.walk, Ingest.process_files.
  apply raises_for_each. intros d. apply raises_for_each. intros file.
  apply process_file_raises.
Qed.

(** X1.  The walk over the dataset (lines 33-94 of ingest_atomics.py)
    never ends in an Exception: whatever the files hold and whatever the
    loader raises, it either completes or is ended by an exception that
    [except Exception] does not catch (KeyboardInterrupt, SystemExit). *)
Theorem walk_survives_exceptions (env : Ingest.Env)
    (dirs : list (string * list string)) (s : Ingest.state) :
  fst (Ingest.walk env dirs s) = Ok tt
  \/ exists e, fst (Ingest.walk env dirs s) = Raise e /\ is_Exception e = false.
Proof.
  destruct (fst (Ingest.walk env dirs s)) as [[]|e] eqn:E; [now left|].
  right. exists e. split; [reflexivity|]. exact (walk_raises env dirs s e E).
Qed.

Lemma bind_ret_tt {S B} (k : unit -> prog S B) s : bind (ret tt) k s = k tt s.
Proof. reflexivity. Qed.

Lemma process_files_filter env root files s :
  Ingest.process_files env root files s
  = Ingest.process_files env root (List.filter definition_file_name files) s.
Proof.
  unfold Ingest.process_files. revert s.
  induction files as [|file files IH]; intros s; [reflexivity|].
  cbn [for_each List.filter].
  destruct (definition_file_name file) eqn:E.
  - cbn [for_each]. unfold bind.
    destruct (Ingest.process_file env root file s) as [[[]|e] s'];
      [apply IH | reflexivity].
  - unfold bind at 1, Ingest.process_file. unfold definition_file_name in E.
    rewrite E. cbn [ret]. apply IH.
Qed.

(** X2.  Files whose name does not both end in [.yaml] and start with
    [T] take no part in the ingestion: the walk over a tree and the walk over
    the same tree without those files end in the same result, the same
    documents, the same counter and the same output. *)
Theorem walk_ignores_other_files (env : Ingest.Env)
    (dirs : list (string * list string)) (s : Ingest.state) :
  Ingest.walk env dirs s = Ingest.walk env (only_definition_files dirs) s.
Proof.
  unfold Ingest.walk, only_definition_files. revert s.
  induction dirs as [|[root files] dirs IH]; intros s; [reflexivity|].
  cbn [for_each map fst snd]. unfold bind.
  rewrite process_files_filter.
  destruct (Ingest.process_files env root _ s) as [[[]|e] s'];
    [apply IH | reflexivity].
Qed.

Lemma logged_logged s a b : logged (logged s a) b = logged s (a ++ b).
Proof. unfold logged. cbn. now rewrite <- app_assoc. Qed.

Lemma run_ingest_emit {A} e (k : unit -> prog Ingest.state A) s :
  bind (Ingest.emit e) k s = k tt (logged s [e]).
Proof. reflexivity. Qed.

Lemma run_gets {S A B} (f : S -> A) (k : A -> prog S B) s :
  bind (gets f) k s = k (f s) s.
Proof. reflexivity. Qed.

Lemma run_lift {S A B} (r : result A) (k : A -> prog S B) s :
  bind (lift r) k s = match r with Ok a => k a s | Raise e => (Raise e, s) end.
Proof. destruct r; reflexivity. Qed.

(** [main], step by step, once [faiss] is imported *)
Lemma main_run env version s :
  Ingest.import_faiss env = Ok version ->
  Ingest.main env s
  = match Ingest.walk env (Ingest.os_walk env)
            (logged s [Ingest.PrintStarting; Ingest.PrintFaissImported version;
                       Ingest.PrintCpuMode;
                       Ingest.PrintScanning (Ingest.DATASET_ROOT env)]) with
    | (Raise e, s2) => (Raise e, s2)
    | (Ok _, s2) =>
        let docs := Ingest.documents s2 in
        let s3 := logged s2 [Ingest.PrintTotal (List.length docs);
                             Ingest.PrintInitEmbeddings] in
        match Ingest.embeddings_init env with
        | Raise e => (Raise e, s3)
        | Ok _ =>
            let s4 := logged s3 [Ingest.PrintBuilding;
                                 Ingest.CallFromDocuments docs] in
            match Ingest.from_documents env docs with
            | Raise e => (Raise e, s4)
            | Ok _ =>
                let s5 := logged s4 [Ingest.PrintSaving Ingest.INDEX_NAME;
                                     Ingest.CallSaveLocal Ingest.INDEX_NAME] in
                match Ingest.save_local env Ingest.INDEX_NAME with
                | Raise e => (Raise e, s5)
                | Ok _ => (Ok tt, logged s5 [Ingest.PrintSuccess])
                end
            end
        end
    end.
Proof.
  intros Himport. unfold Ingest.main. rewrite run_ingest_emit, Himport.
  rewrite !run_ingest_emit, !logged_logged. cbn [app].
  unfold bind at 1.
  destruct (Ingest.walk env _ _) as [[[]|e] s2]; [|reflexivity].
  rewrite run_gets, !run_ingest_emit, !logged_logged, run_lift. cbn [app].
  destruct (Ingest.embeddings_init env) as [[]|e]; [|reflexivity].
  rewrite !run_ingest_emit, !logged_logged, run_lift. cbn [app].
  cbn zeta. cbn [logged Ingest.documents].
  destruct (Ingest.from_documents env _) as [[]|e];
    [|now rewrite ?logged_logged].
  rewrite !run_ingest_emit, !logged_logged, run_lift. cbn [app].
  destruct (Ingest.save_local env _) as [[]|e]; rewrite ?logged_logged;
    [|reflexivity].
  unfold Ingest.emit, modify, logged. cbn. now rewrite <- !app_assoc.
Qed.

Lemma collected_app a b : collected (a ++ b) = collected a ++ collected b.
Proof.
  induction a as [|e a IH]; [reflexivity|].
  destruct e; cbn; now rewrite ?IH.
Qed.

Lemma counted_emit e :
  collected [e] = [] -> preserves counted (Ingest.emit e).
Proof.
  intros He. apply preserves_modify. intros s [Hc Hl].
  split; [exact Hc|]. cbn. now rewrite collected_app, He, app_nil_r.
Qed.

Lemma hundreds_next n :
  (S n mod 100 = 0)%nat -> (S n / 100 = S (n / 100) /\ 100 * S (n / 100) = S n)%nat.
Proof.
  intros H.
  pose proof (Nat.div_mod_eq (S n) 100) as E1.
  pose proof (Nat.div_mod_eq n 100) as E2.
  pose proof (Nat.mod_upper_bound n 100) as B2.
  rewrite H in E1.
  assert (S n / 100 = S (n / 100))%nat by nia. lia.
Qed.

Lemma hundreds_same n :
  (S n mod 100 <> 0)%nat -> (S n / 100 = n / 100)%nat.
Proof.
  intros H.
  pose proof (Nat.div_mod_eq (S n) 100) as E1.
  pose proof (Nat.div_mod_eq n 100) as E2.
  pose proof (Nat.mod_upper_bound n 100) as B2.
  pose proof (Nat.mod_upper_bound (S n) 100) as B1.
  nia.
Qed.

Lemma counted_process_test python tid tname path test :
  preserves counted (Ingest.process_test python tid tname path test).
Proof.
  intros s [Hc Hl]. unfold Ingest.process_test. rewrite run_lift.
  destruct (Ingest.build_document python tid tname path test) as [doc|e];
    [|split; assumption].
  unfold bind, Ingest.append_document, Ingest.incr_count, gets, modify.
  cbn [Ingest.documents Ingest.count Ingest.log fst snd].
  destruct (Nat.eqb_spec (S (Ingest.count s) mod 100) 0) as [E|E].
  - apply hundreds_next in E as [Ed Em].
    split; cbn [Ingest.emit modify Ingest.documents Ingest.count Ingest.log
                fst snd].
    + rewrite length_app. cbn [List.length]. lia.
    + rewrite collected_app, Hl, Ed. cbn [collected].
      rewrite seq_S, map_app. cbn [map Nat.add]. now rewrite Em.
  - apply hundreds_same in E.
    split; cbn [ret Ingest.documents Ingest.count Ingest.log fst snd].
    + rewrite length_app. cbn [List.length]. lia.
    + now rewrite Hl, E.
Qed.

Lemma counted_walk env dirs : preserves counted (Ingest.walk env dirs).
Proof.
  unfold Ingest.walk, Ingest.process_files, Ingest.process_file,
    Ingest.process_data.
  keep; try (apply counted_emit; reflexivity).
  apply counted_process_test.
Qed.

Lemma counted_logged s events :
  collected events = [] -> counted s -> counted (logged s events).
Proof.
  intros He [Hc Hl]. split; [exact Hc|]. cbn.
  now rewrite collected_app, He, app_nil_r.
Qed.

Lemma added_log_nothing P s : added_log P (Ingest.log s) s.
Proof. exists []. split; [now rewrite app_nil_r | constructor]. Qed.

Lemma added_log_emit P log0 e :
  P e -> preserves (added_log P log0) (Ingest.emit e).
Proof.
  intros He. apply preserves_modify. intros s (new & E & H).
  exists (new ++ [e]). cbn. rewrite E, app_assoc. split; [reflexivity|].
  apply Forall_app; auto.
Qed.

Lemma added_log_documents P log0 f :
  (forall s, Ingest.log (f s) = Ingest.log s) ->
  preserves (added_log P log0) (modify f).
Proof.
  intros Hf. apply preserves_modify. intros s (new & E & H).
  exists new. now rewrite Hf.
Qed.

Lemma preserves_try_caught {S A} (I : S -> Prop) (body : prog S A)
    catches handler :
  preserves I body ->
  (forall e, catches e = true -> preserves I (handler e)) ->
  preserves I (try_except body catches handler).
Proof.
  intros Hb Hh s H. unfold try_except. specialize (Hb s H).
  destruct (body s) as [[a|e] s']; cbn in *; [exact Hb|].
  destruct (catches e) eqn:E; [now apply Hh | exact Hb].
Qed.

Lemma walk_log env dirs log0 :
  preserves (added_log walk_event log0) (Ingest.walk env dirs).
Proof.
  unfold Ingest.walk, Ingest.process_files, Ingest.process_file.
  apply preserves_for_each; intros d. apply preserves_for_each; intros file.
  apply preserves_if; [|apply preserves_ret].
  apply preserves_try_caught.
  - unfold Ingest.process_data, Ingest.process_test. keep;
      try (apply added_log_emit; exact I);
      apply added_log_documents; reflexivity.
  - intros e He. apply added_log_emit. exact He.
Qed.

(** the log and the documents when [main] ends, once [faiss] is imported:
    the log is four lines, what the walk wrote, and what followed *)
Lemma main_end env version :
  Ingest.import_faiss env = Ok version ->
  exists s2 walked,
    Ingest.log s2
    = [Ingest.PrintStarting; Ingest.PrintFaissImported version;
       Ingest.PrintCpuMode; Ingest.PrintScanning (Ingest.DATASET_ROOT env)]
      ++ walked
    /\ Forall walk_event walked
    /\ Ingest.main env Ingest.init
       = match fst (Ingest.walk env (Ingest.os_walk env)
                      (logged Ingest.init
                         [Ingest.PrintStarting;
                          Ingest.PrintFaissImported version;
                          Ingest.PrintCpuMode;
                          Ingest.PrintScanning (Ingest.DATASET_ROOT env)])) with
         | Raise e => (Raise e, s2)
         | Ok _ =>
             let docs := Ingest.documents s2 in
             let s3 := logged s2 [Ingest.PrintTotal (List.length docs);
                                  Ingest.PrintInitEmbeddings] in
             match Ingest.embeddings_init env with
             | Raise e => (Raise e, s3)
             | Ok _ =>
                 let s4 := logged s3 [Ingest.PrintBuilding;
                                      Ingest.CallFromDocuments docs] in
                 match Ingest.from_documents env docs with
                 | Raise e => (Raise e, s4)
                 | Ok _ =>
                     let s5 :=
                       logged s4 [Ingest.PrintSaving Ingest.INDEX_NAME;
                                  Ingest.CallSaveLocal Ingest.INDEX_NAME] in
                     match Ingest.save_local env Ingest.INDEX_NAME with
                     | Raise e => (Raise e, s5)
                     | Ok _ => (Ok tt, logged s5 [Ingest.PrintSuccess])
                     end
                 end
             end
         end.
Proof.
  intros Himport. rewrite (main_run env version _ Himport).
  set (s1 := logged Ingest.init _).
  destruct (walk_log env (Ingest.os_walk env) (Ingest.log s1) s1
              (added_log_nothing _ _)) as (walked & E & H).
  exists (snd (Ingest.walk env (Ingest.os_walk env) s1)), walked.
  split; [exact E|]. split; [exact H|].
  destruct (Ingest.walk env (Ingest.os_walk env) s1) as [[[]|e] s2];
    reflexivity.
Qed.

(** [main] when [faiss] cannot be imported *)
Lemma main_without_faiss env e s :
  Ingest.import_faiss env = Raise e ->
  Ingest.main env s
  = if is_ImportError e
    then (Ok tt, logged s [Ingest.PrintStarting; Ingest.PrintFaissMissing])
    else (Raise e, logged s [Ingest.PrintStarting]).
Proof.
  intros H. unfold Ingest.main. rewrite run_ingest_emit, H.
  destruct (is_ImportError e); [|reflexivity].
  unfold Ingest.emit, modify, logged. cbn. now rewrite <- app_assoc.
Qed.

Lemma counted_main env : preserves counted (Ingest.main env).
Proof.
  unfold Ingest.main. keep; [apply counted_emit; reflexivity|].
  destruct (Ingest.import_faiss env) as [v|e].
  - keep; try (apply counted_emit; reflexivity). apply counted_walk.
  - destruct (is_ImportError e); keep. apply counted_emit; reflexivity.
Qed.

Lemma counted_init : counted Ingest.init.
Proof. split; reflexivity. Qed.

(** splitting a membership in the final log *)
Ltac in_log H :=
  repeat (cbn [In app] in H;
          first [ rewrite in_app_iff in H
                | match type of H with
                  | _ \/ _ => destruct H as [H|H]
                  | False => destruct H
                  end ]).

Lemma walked_event walked e :
  Forall walk_event walked -> In e walked -> walk_event e.
Proof.
  intros H Hin. rewrite Forall_forall in H. apply H. now apply list_elem_of_In.
Qed.

(** X3.  When [main] of ingest_atomics.py ends, however it ends, the
    counter equals the number of documents collected, and a total that was
    printed is that number. *)
Theorem counter_counts_documents (env : Ingest.Env) :
  let s := snd (Ingest.main env Ingest.init) in
  Ingest.count s = List.length (Ingest.documents s)
  /\ forall n, In (Ingest.PrintTotal n) (Ingest.log s) ->
               n = List.length (Ingest.documents s).
Proof.
  cbv zeta. split; [apply (counted_main env Ingest.init counted_init)|].
  intros n. destruct (Ingest.import_faiss env) as [version|e] eqn:Himport.
  - destruct (main_end env version Himport) as (s2 & walked & E & Hw & ->).
    destruct (fst (Ingest.walk env _ _)) as [[]|x]; cbv zeta;
      repeat match goal with
             | |- context [match ?r with Ok _ => _ | Raise _ => _ end] =>
                 destruct r as [[]|?]
             end;
      cbn [snd logged Ingest.log Ingest.documents]; rewrite E; intros Hin;
      in_log Hin; try discriminate Hin;
      try (apply (walked_event _ _ Hw) in Hin; destruct Hin);
      try (injection Hin as <-; reflexivity).
  - rewrite (main_without_faiss env e _ Himport).
    destruct (is_ImportError e); cbn; intros Hin; in_log Hin; discriminate.
Qed.

(** X4.  The progress lines of a run are exactly
    [Collected 100], [Collected 200], ... in this order, one for every full
    hundred of documents collected, and no other. *)
Theorem progress_every_hundred (env : Ingest.Env) :
  let s := snd (Ingest.main env Ingest.init) in
  collected (Ingest.log s)
  = map (fun k => 100 * k)%nat (seq 1 (List.length (Ingest.documents s) / 100)).
Proof.
  cbv zeta. destruct (counted_main env Ingest.init counted_init) as [Hc Hl].
  now rewrite <- Hc.
Qed.

(** X5.  If the index builder [FAISS.from_documents] is called in a
    run, it is called with exactly the documents the run has collected, and
    their number has been printed as the total. *)
Theorem index_built_from_collected (env : Ingest.Env) (docs : list Document) :
  In (Ingest.CallFromDocuments docs)
     (Ingest.log (snd (Ingest.main env Ingest.init))) ->
  docs = Ingest.documents (snd (Ingest.main env Ingest.init))
  /\ In (Ingest.PrintTotal (List.length docs))
        (Ingest.log (snd (Ingest.main env Ingest.init))).
Proof.
  destruct (Ingest.import_faiss env) as [version|e] eqn:Himport.
  - destruct (main_end env version Himport) as (s2 & walked & E & Hw & ->).
    destruct (fst (Ingest.walk env _ _)) as [[]|x]; cbv zeta;
      repeat match goal with
             | |- context [match ?r with Ok _ => _ | Raise _ => _ end] =>
                 destruct r as [[]|?]
             end;
      cbn [snd logged Ingest.log Ingest.documents]; rewrite E; intros Hin;
      in_log Hin; try discriminate Hin;
      try (apply (walked_event _ _ Hw) in Hin; destruct Hin);
      injection Hin as <-; (split; [reflexivity|]);
      rewrite !in_app_iff; cbn [In]; auto 10.
  - rewrite (main_without_faiss env e _ Himport).
    destruct (is_ImportError e); cbn; intros Hin; in_log Hin; discriminate.
Qed.

(** X5 on the sample tree. *)
Lemma index_built_from_collected_witness :
  let s := snd (Ingest.main Sample.ingest_env Ingest.init) in
  In (Ingest.CallFromDocuments (Ingest.documents s)) (Ingest.log s)
  /\ In (Ingest.PrintTotal (List.length (Ingest.documents s))) (Ingest.log s).
Proof.
  cbv zeta.
  assert (H : In (Ingest.CallFromDocuments
                    (Ingest.documents
                       (snd (Ingest.main Sample.ingest_env Ingest.init))))
                 (Ingest.log (snd (Ingest.main Sample.ingest_env Ingest.init))))
    by (apply (nth_error_In _ 8); vm_compute; reflexivity).
  split; [exact H|].
  exact (proj2 (index_built_from_collected Sample.ingest_env _ H)).
Defined.

(** X6.  If [save_local] is called in a run, it is called with the
    configured index name, and the embedding model was loaded and the index
    was built from the collected documents without an exception. *)
Theorem saved_only_after_build (env : Ingest.Env) (name : string) :
  In (Ingest.CallSaveLocal name)
     (Ingest.log (snd (Ingest.main env Ingest.init))) ->
  name = Ingest.INDEX_NAME
  /\ Ingest.embeddings_init env = Ok tt
  /\ Ingest.from_documents env
       (Ingest.documents (snd (Ingest.main env Ingest.init))) = Ok tt.
Proof.
  destruct (Ingest.import_faiss env) as [version|e] eqn:Himport.
  - destruct (main_end env version Himport) as (s2 & walked & E & Hw & ->).
    destruct (fst (Ingest.walk env _ _)) as [[]|x]; cbv zeta.
    2:{ cbn [snd]. rewrite E. intros Hin. in_log Hin; try discriminate Hin.
        apply (walked_event _ _ Hw) in Hin. destruct Hin. }
    destruct (Ingest.embeddings_init env) as [[]|x] eqn:Hemb.
    2:{ cbn [snd logged Ingest.log]. rewrite E. intros Hin.
        in_log Hin; try discriminate Hin.
        apply (walked_event _ _ Hw) in Hin. destruct Hin. }
    destruct (Ingest.from_documents env _) as [[]|x] eqn:Hbuild.
    2:{ cbn [snd logged Ingest.log]. rewrite E. intros Hin.
        in_log Hin; try discriminate Hin.
        apply (walked_event _ _ Hw) in Hin. destruct Hin. }
    destruct (Ingest.save_local env _) as [[]|x];
      cbn [snd logged Ingest.log Ingest.documents]; rewrite E; intros Hin;
      in_log Hin; try discriminate Hin;
      try (apply (walked_event _ _ Hw) in Hin; destruct Hin);
      injection Hin as <-; auto.
  - rewrite (main_without_faiss env e _ Himport).
    destruct (is_ImportError e); cbn; intros Hin; in_log Hin; discriminate.
Qed.

(** X6 on the sample tree. *)
Lemma saved_only_after_build_witness :
  let s := snd (Ingest.main Sample.ingest_env Ingest.init) in
  In (Ingest.CallSaveLocal Ingest.INDEX_NAME) (Ingest.log s)
  /\ Ingest.from_documents Sample.ingest_env (Ingest.documents s) = Ok tt.
Proof.
  cbv zeta.
  assert (H : In (Ingest.CallSaveLocal Ingest.INDEX_NAME)
                 (Ingest.log (snd (Ingest.main Sample.ingest_env Ingest.init))))
    by (apply (nth_error_In _ 10); vm_compute; reflexivity).
  split; [exact H|].
  exact (proj2 (proj2 (saved_only_after_build Sample.ingest_env _ H))).
Defined.

(** X7.  If importing [faiss] raises, nothing is scanned: on an
    ImportError [main] prints the start line and the message that the
    module is missing, and returns; any other exception escapes after the
    start line.  No document is collected either way. *)
Theorem faiss_missing_stops (env : Ingest.Env) (e : exn) :
  Ingest.import_faiss env = Raise e ->
  Ingest.main env Ingest.init
  = if is_ImportError e
    then (Ok tt,
          Ingest.mkState [] 0 [Ingest.PrintStarting; Ingest.PrintFaissMissing])
    else (Raise e, Ingest.mkState [] 0 [Ingest.PrintStarting]).
Proof.
  intros H. rewrite (main_without_faiss env e _ H).
  destruct (is_ImportError e); reflexivity.
Qed.

(** X7 on a machine without the package. *)
Lemma faiss_missing_stops_witness :
  Ingest.main Sample.ingest_env_no_faiss Ingest.init
  = (Ok tt,
     Ingest.mkState [] 0 [Ingest.PrintStarting; Ingest.PrintFaissMissing]).
Proof.
  exact (faiss_missing_stops Sample.ingest_env_no_faiss ImportError eq_refl).
Defined.

Lemma all_strs_strings (l : list string) : Py.all_strs (map PStr l) = Ok l.
Proof. induction l as [|s l IH]; cbn; [reflexivity | now rewrite IH]. Qed.

Lemma all_strs_other (l : list pyval) :
  forallb Shape.is_string l = false -> Py.all_strs l = Raise TypeError.
Proof.
  induction l as [|v l IH]; cbn; [discriminate|].
  destruct v; cbn; try reflexivity. intros H. now rewrite IH.
Qed.

Lemma join_joinable sep v :
  joinable v = true -> exists s, Py.join sep v = Ok s.
Proof.
  destruct v as [| | | | s | l | d]; try discriminate; intros H; unfold Py.join;
    cbn [Py.iter rbind].
  - rewrite all_strs_strings. eauto.
  - rewrite (join_strings_all_strs l H). eauto.
  - rewrite <- (map_map fst PStr), all_strs_strings. eauto.
Qed.

Lemma join_not_joinable sep v :
  joinable v = false -> Py.join sep v = Raise TypeError.
Proof.
  destruct v as [| | | | s | l | d]; try discriminate; intros H;
    unfold Py.join; cbn [Py.iter rbind]; try reflexivity.
  now rewrite (all_strs_other l H).
Qed.

Ltac builder_eval :=
  cbn [rbind Py.get Py.strip Py.slice_to Shape.absent_or Shape.is_string
       usable_executor sliceable andb].

Lemma builder_buildable python tid tname path test :
  buildable test = true ->
  exists doc, Ingest.build_document python tid tname path test = Ok doc.
Proof.
  destruct test as [| | | | | |t]; try discriminate. cbn [buildable].
  intros H. apply andb_prop in H as [H Hexec].
  apply andb_prop in H as [Hdesc Hplat].
  unfold Ingest.build_document. builder_eval.
  destruct (Py.lookup "description" t) as [[]|]; try discriminate Hdesc;
    builder_eval.
  all: assert (Hp : exists s,
           (if Py.truthy (default (PList []) (Py.lookup "supported_platforms" t))
            then Py.join ", " (default (PList []) (Py.lookup "supported_platforms" t))
            else Ok "unknown") = Ok s).
  1,3: destruct (Py.lookup "supported_platforms" t) as [p|];
    [|cbn; eauto]; cbn [default from_option id Shape.absent_or] in *;
    unfold usable_platforms in Hplat;
    destruct (Py.truthy p); [|eauto]; cbn in Hplat;
    now apply join_joinable.
  all: destruct Hp as [ps Hps]; unfold default, from_option, id in Hps;
    rewrite Hps; builder_eval.
  all: destruct (Py.lookup "executor" t) as [[| | | | | |e]|];
    try discriminate Hexec; builder_eval; cbn [Py.lookup];
    try (cbn in Hexec; destruct (Py.lookup "command" e) as [[]|];
         try discriminate Hexec); builder_eval; eauto.
Qed.

Lemma builder_not_buildable python tid tname path test :
  buildable test = false ->
  Ingest.build_document python tid tname path test = Raise AttributeError
  \/ Ingest.build_document python tid tname path test = Raise TypeError
  \/ (python = Py.Since312
      /\ Ingest.build_document python tid tname path test = Raise KeyError).
Proof.
  destruct test as [| | | | | |t]; try (intros _; left; reflexivity).
  cbn [buildable]. intros H.
  unfold Ingest.build_document. builder_eval.
  destruct (Py.lookup "description" t) as [d|] eqn:Ed.
  1: destruct d; try (left; reflexivity).
  all: builder_eval; cbn [Shape.absent_or Shape.is_string andb] in H.
  all: destruct (Py.lookup "supported_platforms" t) as [p|] eqn:Ep;
    cbn [Shape.absent_or andb] in H.
  all: try (unfold usable_platforms in H; destruct (Py.truthy p) eqn:Tp;
            cbn [negb orb] in H;
            [destruct (joinable p) eqn:Jp;
             [destruct (join_joinable ", " p Jp) as [ps ->]
             |rewrite (join_not_joinable ", " p Jp); right; left;
              reflexivity]|]).
  all: cbn [andb Py.truthy] in H; builder_eval.
  all: destruct (Py.lookup "executor" t) as [[| | | | | |e]|];
    try discriminate H; try (left; reflexivity); builder_eval;
    cbn [Py.lookup]; cbn [Shape.absent_or usable_executor] in H.
  all: destruct (Py.lookup "command" e) as [[]|]; try discriminate H;
    builder_eval; try (right; left; reflexivity).
  all: destruct python; [right; left | right; right; split]; reflexivity.
Qed.

(** X8.  The exact domain of the Document Builder (lines 51-86), on every
    interpreter: it returns a Document exactly on the tests that are
    [buildable] (a mapping whose description is absent or a text, whose
    platforms are absent, falsy or joinable, and whose executor is absent or
    a mapping with a command that is absent or can be sliced); on every
    other test it raises AttributeError or TypeError, or, since Python 3.12
    only, KeyError (a command that is a mapping, whose slice is then looked
    up as a key). *)
Theorem builder_domain (python : Py.version)
    (technique_id technique_name : pyval) (file_path : string)
    (test : pyval) :
  (buildable test = true ->
   exists doc,
     Ingest.build_document python technique_id technique_name file_path test
     = Ok doc)
  /\ (buildable test = false ->
      Ingest.build_document python technique_id technique_name file_path test
      = Raise AttributeError
      \/ Ingest.build_document python technique_id technique_name file_path
           test
         = Raise TypeError
      \/ (python = Py.Since312
          /\ Ingest.build_document python technique_id technique_name
               file_path test
             = Raise KeyError)).
Proof.
  split; [apply builder_buildable | apply builder_not_buildable].
Qed.

Lemma builder_raises python tid tname path test e :
  Ingest.build_document python tid tname path test = Raise e ->
  is_Exception e = true.
Proof.
  intros H. destruct (buildable test) eqn:B.
  - destruct (builder_buildable python tid tname path test B) as [doc E].
    congruence.
  - destruct (builder_not_buildable python tid tname path test B)
      as [E | [E | [_ E]]];
      rewrite E in H; injection H as <-; reflexivity.
Qed.

(** X9.  A test whose [description] key is present with a value that
    is not a text (a null from an empty YAML field, for one) makes the
    builder raise AttributeError: the default of [.get] only covers an
    absent key. *)
Theorem description_must_be_text (python : Py.version)
    (technique_id technique_name : pyval) (file_path : string)
    (t : list (string * pyval)) (v : pyval) :
  Py.lookup "description" t = Some v ->
  Shape.is_string v = false ->
  Ingest.build_document python technique_id technique_name file_path (PDict t)
  = Raise AttributeError.
Proof.
  intros Hv Hs. unfold Ingest.build_document. cbn [Py.get rbind].
  rewrite Hv. destruct v; try discriminate Hs; reflexivity.
Qed.

(** X9 on a test whose description field is empty in the YAML text. *)
Lemma description_must_be_text_witness :
  Ingest.build_document Py.Since312 (PStr "T1003")
    (PStr "OS Credential Dumping") "atomics/T1003/T1003.yaml"
    (PDict [("name", PStr "Dump LSASS"); ("description", PNone)])
  = Raise AttributeError.
Proof.
  exact (description_must_be_text Py.Since312 (PStr "T1003")
           (PStr "OS Credential Dumping") "atomics/T1003/T1003.yaml"
           [("name", PStr "Dump LSASS"); ("description", PNone)] PNone
           eq_refl eq_refl).
Defined.

(** a slice that is taken is the same on every interpreter *)
Lemma slice_to_any python python' n v r :
  Py.slice_to python n v = Ok r -> Py.slice_to python' n v = Ok r.
Proof. destruct v; try discriminate; exact id. Qed.

Lemma built_content_matches d : built d -> content_matches_metadata d.
Proof.
  intros (python & tid & tname & path & test & H).
  apply build_document_inv in H
    as (test_name & platform_str & description & command & executor_name
        & command1000 & _ & Hslice & _ & ->).
  exists tid, tname, test_name, platform_str, description, command, command1000.
  repeat (split; [reflexivity|]).
  split; [intros python'; exact (slice_to_any _ _ _ _ _ Hslice) | reflexivity].
Qed.

(** X10.  Every document of a run has a content composed from the
    technique id, technique name, test name and platform that its metadata
    holds, and its metadata command is the first 1000 characters of the
    command of its content. *)
Theorem content_agrees_with_metadata (env : Ingest.Env) (d : Document) :
  In d (Ingest.documents (snd (Ingest.main env Ingest.init))) ->
  content_matches_metadata d.
Proof. intros H. apply built_content_matches, (main_documents_built env), H. Qed.

Lemma preserves_for_each_in {S A} (I : S -> Prop) (l : list A)
    (body : A -> prog S unit) :
  (forall x, In x l -> preserves I (body x)) -> preserves I (for_each l body).
Proof.
  induction l as [|x l IH]; intros Hb; cbn [for_each].
  - apply preserves_ret.
  - apply preserves_bind; [apply Hb; now left|].
    intros _. apply IH. intros y Hy. apply Hb. now right.
Qed.

(** X10 at the first document of the sample run. *)
Lemma content_agrees_with_metadata_witness :
  content_matches_metadata
    (hd Sample.doc_a
        (Ingest.documents (snd (Ingest.main Sample.ingest_env Ingest.init)))).
Proof.
  apply (content_agrees_with_metadata Sample.ingest_env).
  vm_compute. left. reflexivity.
Defined.

Lemma built_source python tid tname path test doc :
  Ingest.build_document python tid tname path test = Ok doc ->
  metadata doc !! "source" = Some (PStr path).
Proof.
  intros H. apply build_document_inv in H
    as (? & ? & ? & ? & ? & ? & _ & _ & _ & ->). reflexivity.
Qed.

Lemma walk_read_from env dirs docs0 :
  preserves (added_documents (read_from env dirs) docs0) (Ingest.walk env dirs).
Proof.
  unfold Ingest.walk, Ingest.process_files.
  apply preserves_for_each_in. intros [root files] Hd.
  apply preserves_for_each_in. intros file Hf. cbn [fst snd].
  destruct (definition_file_name file) eqn:Hname.
  - apply added_process_file. intros data tid tname test doc Hload _ _ Hb.
    exists root, files, file, data. repeat (split; [assumption|]).
    eapply built_source, Hb.
  - unfold Ingest.process_file. unfold definition_file_name in Hname.
    rewrite Hname. apply preserves_ret.
Qed.

Lemma main_read_from env docs0 :
  preserves (added_documents (read_from env (Ingest.os_walk env)) docs0)
    (Ingest.main env).
Proof.
  unfold Ingest.main. keep; [apply added_emit|].
  destruct (Ingest.import_faiss env) as [v|e].
  - keep; auto using added_emit, walk_read_from.
  - destruct (is_ImportError e); keep; apply added_emit.
Qed.

(** X11.  Every document of a run names, under [source], the path
    [os.path.join(root, file)] of a file of the walked tree whose name is a
    definition file name and which the loader parsed without an
    exception. *)
Theorem source_names_a_walked_file (env : Ingest.Env) (d : Document) :
  In d (Ingest.documents (snd (Ingest.main env Ingest.init))) ->
  read_from env (Ingest.os_walk env) d.
Proof.
  intros Hin.
  destruct (main_read_from env [] Ingest.init (added_nothing _ Ingest.init))
    as (new & E & H).
  rewrite E in Hin. cbn [app] in Hin. rewrite Forall_forall in H. apply H.
  now apply list_elem_of_In.
Qed.

(** X11 at the first document of the sample run. *)
Lemma source_names_a_walked_file_witness :
  read_from Sample.ingest_env (Ingest.os_walk Sample.ingest_env)
    (hd Sample.doc_a
        (Ingest.documents (snd (Ingest.main Sample.ingest_env Ingest.init)))).
Proof.
  apply (source_names_a_walked_file Sample.ingest_env).
  vm_compute. left. reflexivity.
Defined.

(** X12.  A definition file that parses to something that is not a
    mapping adds no document and does not stop the walk: the file is
    skipped silently or with one report, of an AttributeError or of a
    TypeError. *)
Theorem non_mapping_file_adds_nothing (env : Ingest.Env) (root file : string)
    (data : pyval) (s : Ingest.state) :
  definition_file_name file = true ->
  Ingest.load_yaml env (Ingest.path_join env root file) = Ok data ->
  (forall d, data <> PDict d) ->
  exists reports,
    Ingest.process_file env root file s = (Ok tt, logged s reports)
    /\ (reports = []
        \/ reports = [Ingest.PrintErrorProcessing file AttributeError]
        \/ reports = [Ingest.PrintErrorProcessing file TypeError]).
Proof.
  intros Hname Hload Hdata. unfold Ingest.process_file.
  unfold definition_file_name in Hname. rewrite Hname.
  unfold try_except. rewrite run_lift, Hload.
  unfold Ingest.process_data, Ingest.no_tests. rewrite run_lift.
  assert (Hsame : (Ok tt, s) = (Ok tt, logged s [])).
  { unfold logged. rewrite app_nil_r. now destruct s. }
  destruct data as [| b | z | nz text | text | l | d];
    try (exfalso; eapply Hdata; reflexivity); cbn [Py.truthy negb].
  - exists []. auto.
  - destruct b; cbn [negb Py.contains rbind]; eauto 6.
  - destruct (z =? 0)%Z; cbn [negb Py.contains rbind]; eauto 6.
  - destruct nz; cbn [negb Py.contains rbind]; eauto 6.
  - destruct (String.eqb text ""); cbn [negb Py.contains rbind];
      [exists []; auto|].
    destruct (Str.contains "atomic_tests" text); cbn [negb ret];
      [|exists []; auto].
    rewrite run_lift. cbn [Py.get is_Exception]. eauto 6.
  - destruct l as [|x l]; cbn [negb Py.contains rbind]; [exists []; auto|].
    destruct (existsb _ _); cbn [negb ret]; [|exists []; auto].
    rewrite run_lift. cbn [Py.get is_Exception]. eauto 6.
Qed.

(** X12 on a file that holds the list [["atomic_tests"]]: the membership
    test succeeds and [data.get] raises. *)
Lemma non_mapping_file_adds_nothing_witness :
  exists reports,
    Ingest.process_file Sample.ingest_env_odd "atomics/T1059" "Tlist.yaml"
      Ingest.init
    = (Ok tt, logged Ingest.init reports)
    /\ (reports = []
        \/ reports = [Ingest.PrintErrorProcessing "Tlist.yaml" AttributeError]
        \/ reports = [Ingest.PrintErrorProcessing "Tlist.yaml" TypeError]).
Proof.
  apply (non_mapping_file_adds_nothing Sample.ingest_env_odd "atomics/T1059"
           "Tlist.yaml" (PList [PStr "atomic_tests"]) Ingest.init).
  - vm_compute. reflexivity.
  - vm_compute. reflexivity.
  - intros d. discriminate.
Defined.

Lemma for_each_app {S A} (l1 l2 : list A) (body : A -> prog S unit) s :
  for_each (l1 ++ l2) body s
  = bind (for_each l1 body) (fun _ => for_each l2 body) s.
Proof.
  revert s. induction l1 as [|x l1 IH]; intros s; [reflexivity|].
  cbn [app for_each]. rewrite run_assoc. unfold bind at 1 2.
  destruct (body x s) as [[[]|e] s']; [apply IH | reflexivity].
Qed.

(** X13.  When the builder raises on a test of a file, the documents
    of the atomic tests before it stay collected, the tests after it are
    not looked at, and the file ends with a single report of that exception:
    the handler of lines 93-94 is around the whole file, not around one
    test. *)
Theorem bad_test_keeps_earlier_documents (env : Ingest.Env)
    (root file : string) (d : list (string * pyval))
    (good : list pyval) (bad : pyval) (rest : list pyval) (e : exn)
    (s : Ingest.state) :
  definition_file_name file = true ->
  Ingest.load_yaml env (Ingest.path_join env root file) = Ok (PDict d) ->
  Py.lookup "atomic_tests" d = Some (PList (good ++ bad :: rest)) ->
  Forall (fun t => Shape.atomic_test t = true) good ->
  Ingest.build_document (Ingest.python env)
    (default (PStr "Unknown") (Py.lookup "attack_technique" d))
    (default (PStr "Unknown") (Py.lookup "display_name" d))
    (Ingest.path_join env root file) bad = Raise e ->
  exists s' new reports,
    Ingest.process_file env root file s = (Ok tt, s')
    /\ Ingest.documents s' = Ingest.documents s ++ new
    /\ List.length new = List.length good
    /\ Ingest.log s'
       = Ingest.log s ++ reports ++ [Ingest.PrintErrorProcessing file e]
    /\ Forall only_progress reports.
Proof.
  intros Hname Hload Htests Hgood Hbad.
  unfold definition_file_name in Hname.
  rewrite (process_file_tests env root file d _ s Hname Hload Htests).
  unfold try_except. rewrite for_each_app. unfold bind at 1.
  destruct (process_tests_atomic (Ingest.python env)
              (default (PStr "Unknown") (Py.lookup "attack_technique" d))
              (default (PStr "Unknown") (Py.lookup "display_name" d))
              (Ingest.path_join env root file) good s Hgood)
    as (s1 & new & reports & Erun & Hdocs & Hlen & Hlog & Hrep).
  rewrite Erun. cbn [for_each]. unfold bind at 1.
  unfold Ingest.process_test at 1. rewrite run_lift, Hbad.
  rewrite (builder_raises _ _ _ _ _ _ Hbad).
  eexists _, new, reports. split; [reflexivity|].
  cbn [Ingest.emit modify snd Ingest.documents Ingest.log].
  rewrite Hdocs, Hlog, <- app_assoc. auto.
Qed.

(** X13 on a definition of three tests, the second of which is a text. *)
Lemma bad_test_keeps_earlier_documents_witness :
  exists s' new reports,
    Ingest.process_file Sample.ingest_env_odd "atomics/T1059" "T1059.yaml"
      Ingest.init
    = (Ok tt, s')
    /\ Ingest.documents s' = Ingest.documents Ingest.init ++ new
    /\ List.length new = List.length [Sample.test_full]
    /\ Ingest.log s'
       = Ingest.log Ingest.init ++ reports
         ++ [Ingest.PrintErrorProcessing "T1059.yaml" AttributeError]
    /\ Forall only_progress reports.
Proof.
  apply (bad_test_keeps_earlier_documents Sample.ingest_env_odd
           "atomics/T1059" "T1059.yaml" Sample.definition_bad_test
           [Sample.test_full] (PStr "oops") [Sample.test_full]
           AttributeError Ingest.init).
  - vm_compute. reflexivity.
  - vm_compute. reflexivity.
  - reflexivity.
  - constructor; [vm_compute; reflexivity | constructor].
  - reflexivity.
Defined.

(** * More about the query pipeline *)

(** the startup of [main], up to the loop *)
Lemma query_main_run env inputs t :
  Query.main env inputs t
  = match Query.getenv_GROQ_API_KEY env with
    | None => (Ok tt, t ++ [Query.PrintBanner; Query.PrintNoApiKey])
    | Some api_key0 =>
        if String.eqb api_key0 ""
        then (Ok tt, t ++ [Query.PrintBanner; Query.PrintNoApiKey])
        else
          let api_key := Str.strip api_key0 in
          let t1 := t ++ [Query.PrintBanner;
                          Query.PrintLoadedKey (Query.mask api_key);
                          Query.PrintLoadingIndex] in
          match Query.embeddings_init env with
          | Raise e =>
              if is_Exception e then (Ok tt, t1 ++ [Query.PrintLoadFailed e])
              else (Raise e, t1)
          | Ok _ =>
              let t2 := t1 ++ [Query.PrintCpuMode;
                               Query.CallLoadLocal Query.INDEX_FOLDER] in
              match Query.load_local env Query.INDEX_FOLDER with
              | Raise e =>
                  if is_Exception e
                  then (Ok tt, t2 ++ [Query.PrintLoadFailed e])
                  else (Raise e, t2)
              | Ok _ =>
                  let t3 := t2 ++ [Query.PrintIndexLoaded;
                                   Query.PrintConnecting Query.GROQ_MODEL_NAME] in
                  match Query.chat_groq env Query.GROQ_MODEL_NAME api_key with
                  | Raise e =>
                      if is_Exception e
                      then (Ok tt, t3 ++ [Query.PrintLlmFailed e])
                      else (Raise e, t3)
                  | Ok _ => Query.loop env inputs (t3 ++ [Query.PrintReady])
                  end
              end
          end
    end.
Proof.
  unfold Query.main. rewrite run_emit.
  destruct (Query.getenv_GROQ_API_KEY env) as [k|];
    [|unfold Query.emit, modify; now rewrite <- app_assoc].
  cbn [Py.truthy]. rewrite negb_involutive.
  destruct (String.eqb k "");
    [unfold Query.emit, modify; now rewrite <- app_assoc|].
  rewrite !run_emit. cbv zeta. rewrite <- !app_assoc. cbn [app].
  unfold bind at 1, try_except.
  destruct (Query.embeddings_init env) as [[]|e].
  2:{ rewrite run_lift_raise. destruct (is_Exception e); [|reflexivity].
      rewrite run_emit. cbn [ret negb]. reflexivity. }
  rewrite run_lift_ok, !run_emit.
  destruct (Query.load_local env _) as [[]|e].
  2:{ rewrite run_lift_raise. destruct (is_Exception e);
        rewrite <- ?app_assoc; [|reflexivity].
      rewrite run_emit. cbn [ret negb]. now rewrite <- !app_assoc. }
  rewrite run_lift_ok, run_emit. cbn [ret negb]. rewrite run_emit.
  unfold bind at 1.
  destruct (Query.chat_groq env _ _) as [[]|e].
  2:{ rewrite run_lift_raise. destruct (is_Exception e);
        rewrite <- ?app_assoc; [|reflexivity].
      rewrite run_emit. cbn [ret negb]. now rewrite <- !app_assoc. }
  rewrite run_lift_ok. cbn [ret negb]. rewrite run_emit.
  now rewrite <- !app_assoc.
Qed.

(** X14.  With GROQ_API_KEY unset or empty, [main] of query_rag.py
    prints the banner and the error line and returns: nothing is loaded and
    no line is read. *)
Theorem missing_api_key_stops (env : Query.Env) (inputs : list string)
    (t : Query.trace) :
  Query.getenv_GROQ_API_KEY env = None
  \/ Query.getenv_GROQ_API_KEY env = Some "" ->
  Query.main env inputs t
  = (Ok tt, t ++ [Query.PrintBanner; Query.PrintNoApiKey]).
Proof.
  intros [H|H]; rewrite query_main_run, H; reflexivity.
Qed.

(** X14 with the variable unset. *)
Lemma missing_api_key_stops_witness :
  Query.main Sample.query_env_no_key ["ssh brute force"] []
  = (Ok tt, [Query.PrintBanner; Query.PrintNoApiKey]).
Proof.
  exact (missing_api_key_stops Sample.query_env_no_key ["ssh brute force"] []
           (or_introl eq_refl)).
Defined.

Ltac in_trace H :=
  repeat (cbn [In app snd] in H;
          first [ rewrite in_app_iff in H
                | match type of H with
                  | _ \/ _ => destruct H as [H|H]
                  | False => destruct H
                  end ]).

(** X15.  A prompt is shown only after the whole startup went through:
    the key is set and not empty, the embedding model and the index were
    loaded, and the Groq client was created with the stripped key. *)
Theorem prompt_only_after_startup (env : Query.Env) (inputs : list string) :
  In Query.Prompt (snd (Query.main env inputs [])) ->
  exists api_key,
    Query.getenv_GROQ_API_KEY env = Some api_key
    /\ api_key <> ""
    /\ Query.embeddings_init env = Ok tt
    /\ Query.load_local env Query.INDEX_FOLDER = Ok tt
    /\ Query.chat_groq env Query.GROQ_MODEL_NAME (Str.strip api_key) = Ok tt.
Proof.
  rewrite query_main_run.
  destruct (Query.getenv_GROQ_API_KEY env) as [k|];
    [|intros H; in_trace H; discriminate H].
  destruct (String.eqb_spec k "") as [->|Hk];
    [intros H; in_trace H; discriminate H|].
  cbv zeta.
  destruct (Query.embeddings_init env) as [[]|e] eqn:Hemb.
  2:{ destruct (is_Exception e); intros H; in_trace H; discriminate H. }
  destruct (Query.load_local env _) as [[]|e] eqn:Hload.
  2:{ destruct (is_Exception e); intros H; in_trace H; discriminate H. }
  destruct (Query.chat_groq env _ _) as [[]|e] eqn:Hllm.
  2:{ destruct (is_Exception e); intros H; in_trace H; discriminate H. }
  intros _. exists k. repeat split; auto.
Qed.

(** X15 on a session of one line. *)
Lemma prompt_only_after_startup_witness :
  exists api_key,
    Query.getenv_GROQ_API_KEY (Sample.query_env Sample.not_json) = Some api_key
    /\ api_key <> ""
    /\ Query.embeddings_init (Sample.query_env Sample.not_json) = Ok tt
    /\ Query.load_local (Sample.query_env Sample.not_json) Query.INDEX_FOLDER
       = Ok tt
    /\ Query.chat_groq (Sample.query_env Sample.not_json)
         Query.GROQ_MODEL_NAME (Str.strip api_key) = Ok tt.
Proof.
  apply (prompt_only_after_startup (Sample.query_env Sample.not_json) ["exit"]).
  vm_compute. repeat (first [left; reflexivity | right]).
Defined.

(** X16.  A line that strips to [exit], [quit] or [q] in any case ends
    the loop at once: the lines after it are not read and no stage is
    called. *)
Theorem exit_word_ends_loop (env : Query.Env) (raw : string)
    (rest : list string) (t : Query.trace) :
  Query.is_exit (Str.strip raw) = true ->
  Query.loop env (raw :: rest) t
  = (Ok tt, t ++ [Query.Prompt; Query.PrintShuttingDown]).
Proof.
  intros H. cbn [Query.loop]. unfold bind at 1, Query.iteration.
  rewrite run_emit, H, run_emit. cbn [ret]. now rewrite <- app_assoc.
Qed.

(** X16: the word in capitals and between blanks, an alert after it. *)
Lemma exit_word_ends_loop_witness :
  Query.loop (Sample.query_env Sample.not_json) ["  Quit "; "ssh brute force"]
    []
  = (Ok tt, [Query.Prompt; Query.PrintShuttingDown]).
Proof.
  apply (exit_word_ends_loop (Sample.query_env Sample.not_json) "  Quit "
           ["ssh brute force"] []).
  vm_compute. reflexivity.
Defined.

(** how one round ends *)
Lemma iteration_outcome env raw t :
  (Query.is_exit (Str.strip raw) = true
   /\ fst (Query.iteration env raw t) = Ok Query.Break)
  \/ (Query.is_exit (Str.strip raw) = false
      /\ (fst (Query.iteration env raw t) = Ok Query.Continue
          \/ exists e, fst (Query.iteration env raw t) = Raise e
                       /\ is_Exception e = false)).
Proof.
  unfold Query.iteration. rewrite run_emit.
  destruct (Query.is_exit (Str.strip raw)); [left; split; reflexivity|].
  right. split; [reflexivity|].
  destruct (negb _); [left; reflexivity|].
  unfold bind, try_except.
  destruct (Query.turn env (Str.strip raw) _) as [[[]|e] t']; [now left|].
  destruct (is_Exception e) eqn:E; [now left|]. right. eauto.
Qed.

(** X17.  The loop of query_rag.py ends in one of three ways only:
    normally, and then an exit word was among the lines; with the EOFError of
    [input], and then no line was an exit word; or with an exception that
    [except Exception] does not catch.  No other exception of a turn ends
    it. *)
Theorem loop_ends_on_exit_or_end_of_input (env : Query.Env)
    (inputs : list string) (t : Query.trace) :
  (fst (Query.loop env inputs t) = Ok tt
   /\ Exists (fun raw => Query.is_exit (Str.strip raw) = true) inputs)
  \/ (fst (Query.loop env inputs t) = Raise EOFError
      /\ Forall (fun raw => Query.is_exit (Str.strip raw) = false) inputs)
  \/ (exists e, fst (Query.loop env inputs t) = Raise e
                /\ is_Exception e = false).
Proof.
  revert t. induction inputs as [|raw rest IH]; intros t.
  - right. left. split; [reflexivity | constructor].
  - cbn [Query.loop]. unfold bind.
    destruct (iteration_outcome env raw t) as [[Hexit Hr] | [Hexit [Hr | Hr]]].
    + destruct (Query.iteration env raw t) as [r t']. cbn [fst] in Hr.
      subst r. left. split; [reflexivity|]. now apply Exists_cons_hd.
    + destruct (Query.iteration env raw t) as [r t']. cbn [fst] in Hr.
      subst r. destruct (IH t') as [[H1 H2] | [[H1 H2] | H]].
      * left. split; [exact H1|]. now apply Exists_cons_tl.
      * right. left. split; [exact H1|]. now constructor.
      * right. right. exact H.
    + destruct Hr as (e & Hr & He).
      destruct (Query.iteration env raw t) as [r t']. cbn [fst] in Hr.
      subst r. right. right. eauto.
Qed.

Lemma parse_rewrite_object env query answer d :
  Query.json_loads env answer = Ok (PDict d) ->
  Query.parse_rewrite env query answer
  = Ok (default (PStr query) (Py.lookup "enhanced_query" d),
        default (PDict []) (Py.lookup "iocs" d)).
Proof. intros H. unfold Query.parse_rewrite. now rewrite H. Qed.

Lemma parse_rewrite_other env query answer v :
  Query.json_loads env answer = Ok v ->
  (forall d, v <> PDict d) ->
  Query.parse_rewrite env query answer = Raise AttributeError.
Proof.
  intros H Hv. unfold Query.parse_rewrite. rewrite H.
  destruct v; try reflexivity. exfalso. eapply Hv. reflexivity.
Qed.

(** X18.  When the answer of the rewriter decodes to JSON that is not an
    object (a list, a text, a number, null), the turn ends in an
    AttributeError right after the rewriter call: nothing is searched and
    the analyst is not called. *)
Theorem non_object_answer_fails_the_turn (env : Query.Env)
    (query answer : string) (v : pyval) (t : Query.trace) :
  Query.rewriter_invoke env query = Ok answer ->
  Query.json_loads env answer = Ok v ->
  (forall d, v <> PDict d) ->
  Query.turn env query t
  = (Raise AttributeError,
     t ++ [Query.PrintStep1; Query.CallRewriter query]).
Proof.
  intros Hanswer Hjson Hv. unfold Query.turn, bind at 1.
  rewrite rewrite_query_run. cbv zeta.
  now rewrite Hanswer, (parse_rewrite_other _ _ _ _ Hjson Hv).
Qed.

(** X18 on the answer [[]]. *)
Lemma non_object_answer_fails_the_turn_witness :
  Query.turn (Sample.query_env Sample.json_array) "ssh brute force" []
  = (Raise AttributeError,
     [Query.PrintStep1; Query.CallRewriter "ssh brute force"]).
Proof.
  apply (non_object_answer_fails_the_turn (Sample.query_env Sample.json_array)
           "ssh brute force" Sample.json_array (PList []) []).
  - reflexivity.
  - vm_compute. reflexivity.
  - intros d. discriminate.
Defined.

(** X19.  When the answer of the rewriter decodes to an object, each of
    the two keys has its own default: the enhanced query is the value of
    [enhanced_query] or else the alert, the indicators are the value of
    [iocs] or else the empty mapping, and the indicators are printed only
    when they are truthy. *)
Theorem object_answer_defaults (env : Query.Env) (query answer : string)
    (d : list (string * pyval)) (t : Query.trace) :
  Query.rewriter_invoke env query = Ok answer ->
  Query.json_loads env answer = Ok (PDict d) ->
  let enhanced_query := default (PStr query) (Py.lookup "enhanced_query" d) in
  let iocs := default (PDict []) (Py.lookup "iocs" d) in
  Query.rewrite_query env query t
  = (Ok (enhanced_query, iocs),
     t ++ [Query.PrintStep1; Query.CallRewriter query;
           Query.PrintEnhancedQuery enhanced_query]
       ++ (if Py.truthy iocs then [Query.PrintExtractedIocs iocs] else [])).
Proof.
  intros Hanswer Hjson. cbv zeta. rewrite rewrite_query_run. cbv zeta.
  rewrite Hanswer, (parse_rewrite_object _ _ _ _ Hjson). cbn [fst snd].
  now rewrite <- !app_assoc.
Qed.

(** X19 on an object without [enhanced_query], whose indicators are a
    list. *)
Lemma object_answer_defaults_witness :
  Query.rewrite_query (Sample.query_env_objects Sample.json_object_list)
    "scan from 10.0.0.1" []
  = (Ok (PStr "scan from 10.0.0.1", PList [PStr "10.0.0.1"]),
     [Query.PrintStep1; Query.CallRewriter "scan from 10.0.0.1";
      Query.PrintEnhancedQuery (PStr "scan from 10.0.0.1");
      Query.PrintExtractedIocs (PList [PStr "10.0.0.1"])]).
Proof.
  assert (H : Query.json_loads
                (Sample.query_env_objects Sample.json_object_list)
                Sample.json_object_list
              = Ok (PDict [("iocs", PList [PStr "10.0.0.1"])]))
    by (vm_compute; reflexivity).
  exact (object_answer_defaults
           (Sample.query_env_objects Sample.json_object_list)
           "scan from 10.0.0.1" Sample.json_object_list
           [("iocs", PList [PStr "10.0.0.1"])] [] eq_refl H).
Defined.

Lemma for_each_emit {A} (f : A -> Query.event) (l : list A) t :
  for_each l (fun x => Query.emit (f x)) t = (Ok tt, t ++ map f l).
Proof.
  revert t. induction l as [|x l IH]; intros t; cbn [for_each map].
  - now rewrite app_nil_r.
  - rewrite run_emit, IH, <- app_assoc. reflexivity.
Qed.

Lemma print_results_run analysis docs t :
  Query.print_results analysis docs t
  = (Ok tt,
     t ++ [Query.PrintAnalysis analysis; Query.PrintSourcesHeader]
       ++ map source_event (Query.enumerate 1 docs)
       ++ [Query.PrintSourcesEnd]).
Proof.
  unfold Query.print_results. rewrite !run_emit. unfold bind.
  change (fun id : nat * Document =>
            Query.emit (Query.PrintSource (fst id)
                          (Query.metadata_get (snd id) "technique_name")
                          (Query.metadata_get (snd id) "platform")))
    with (fun id => Query.emit (source_event id)).
  rewrite for_each_emit. unfold Query.emit, modify.
  now rewrite <- !app_assoc.
Qed.

Lemma enumerate_fst {A} n (l : list A) :
  map fst (Query.enumerate n l) = seq n (List.length l).
Proof.
  revert n. induction l as [|x l IH]; intros n; cbn; [reflexivity|].
  now rewrite IH.
Qed.

Lemma enumerate_snd {A} n (l : list A) : map snd (Query.enumerate n l) = l.
Proof.
  revert n. induction l as [|x l IH]; intros n; cbn; [reflexivity|].
  now rewrite IH.
Qed.

(** X20.  The report lists the sources in the order of retrieval,
    numbered from 1 without a gap, each with the technique name and platform
    of its metadata, [Unknown] standing for a key that is absent. *)
Theorem sources_listed_in_order (analysis : string) (docs : list Document)
    (t : Query.trace) :
  Query.print_results analysis docs t
  = (Ok tt,
     t ++ [Query.PrintAnalysis analysis; Query.PrintSourcesHeader]
       ++ map source_event (Query.enumerate 1 docs)
       ++ [Query.PrintSourcesEnd])
  /\ map fst (Query.enumerate 1 docs) = seq 1 (List.length docs)
  /\ map snd (Query.enumerate 1 docs) = docs
  /\ (forall doc key,
        metadata doc !! key = None ->
        Query.metadata_get doc key = PStr "Unknown").
Proof.
  split; [apply print_results_run|]. split; [apply enumerate_fst|].
  split; [apply enumerate_snd|].
  intros doc key H. unfold Query.metadata_get. now rewrite H.
Qed.

(** one turn after step 1, case by case *)
Lemma turn_run env query t :
  Query.turn env query t
  = match Query.rewrite_query env query t with
    | (Raise e, t1) => (Raise e, t1)
    | (Ok rewritten, t1) =>
        let t2 := t1 ++ [Query.PrintStep2;
                         Query.CallSearch (fst rewritten) 4] in
        match Query.similarity_search env (fst rewritten) 4 with
        | Raise e => (Raise e, t2)
        | Ok docs =>
            let t3 := t2 ++ [Query.PrintStep3] in
            match Query.render_ioc_details (snd rewritten) with
            | Raise e => (Raise e, t3)
            | Ok details =>
                let args :=
                  Query.mkAnalystArgs (Query.context_str docs) query
                    (snd rewritten) details in
                match Query.llm_invoke env args with
                | Raise e => (Raise e, t3 ++ [Query.CallAnalyst args])
                | Ok analysis =>
                    (Ok tt,
                     t3 ++ [Query.CallAnalyst args]
                        ++ [Query.PrintAnalysis analysis;
                            Query.PrintSourcesHeader]
                        ++ map source_event (Query.enumerate 1 docs)
                        ++ [Query.PrintSourcesEnd])
                end
            end
        end
    end.
Proof.
  unfold Query.turn, bind at 1.
  destruct (Query.rewrite_query env query t) as [[rw|e] t1]; [|reflexivity].
  cbv zeta. rewrite run_emit. unfold Query.retrieve.
  rewrite run_assoc, run_emit. rewrite <- app_assoc. cbn [app].
  destruct (Query.similarity_search env (fst rw) 4) as [docs|e];
    [rewrite run_lift_ok | now rewrite run_lift_raise].
  unfold Query.generate_analysis.
  rewrite run_assoc, run_emit, run_assoc.
  destruct (Query.render_ioc_details (snd rw)) as [details|e];
    [rewrite run_lift_ok | now rewrite run_lift_raise].
  cbv zeta. rewrite run_assoc, run_emit.
  destruct (Query.llm_invoke env _) as [analysis|e];
    [rewrite run_lift_ok | now rewrite run_lift_raise].
  rewrite print_results_run. now rewrite <- !app_assoc.
Qed.

(** a turn that gets as far as step 3 calls the analyst, with the alert it
    was given *)
Lemma turn_calls_analyst env query t answer rewritten docs details :
  Query.rewriter_invoke env query = Ok answer ->
  Query.parse_rewrite env query answer = Ok rewritten ->
  Query.similarity_search env (fst rewritten) 4 = Ok docs ->
  Query.render_ioc_details (snd rewritten) = Ok details ->
  exists before after,
    snd (Query.turn env query t)
    = t ++ Query.PrintStep1 :: Query.CallRewriter query
        :: before
        ++ Query.CallAnalyst
             (Query.mkAnalystArgs (Query.context_str docs) query
                (snd rewritten) details)
        :: after.
Proof.
  intros Hanswer Hparse Hsearch Hrender.
  rewrite turn_run, rewrite_query_run. cbv zeta.
  rewrite Hanswer, Hparse, Hsearch, Hrender.
  exists (Query.PrintEnhancedQuery (fst rewritten)
          :: (if Py.truthy (snd rewritten)
              then [Query.PrintExtractedIocs (snd rewritten)] else [])
          ++ [Query.PrintStep2; Query.CallSearch (fst rewritten) 4;
              Query.PrintStep3]).
  destruct (Query.llm_invoke env _) as [analysis|e]; cbn [snd];
    eexists; rewrite <- !app_assoc; cbn [app]; rewrite <- ?app_assoc;
    cbn [app]; reflexivity.
Qed.

(** what the guard of a turn returns *)
Lemma guarded_result (p : prog Query.trace unit) t :
  fst (try_except p is_Exception
         (fun e => Query.emit (Query.PrintErrorDuringAnalysis e)) t) = Ok tt
  \/ exists e,
       is_Exception e = false
       /\ fst (try_except p is_Exception
                 (fun e => Query.emit (Query.PrintErrorDuringAnalysis e)) t)
          = Raise e.
Proof.
  unfold try_except. destruct (p t) as [[[]|e] t']; [now left|].
  destruct (is_Exception e) eqn:He; [now left | right; eauto].
Qed.

(** the guard keeps the trace of the turn and may add its report *)
Lemma guard_trace_extends r t :
  exists report, guard_trace r t = t ++ report.
Proof.
  destruct r as [a|e]; cbn [guard_trace]; [exists []; now rewrite app_nil_r|].
  destruct (is_Exception e); [eauto | exists []; now rewrite app_nil_r].
Qed.

(** C9: the loop on the typed line [raw], with the lines [rest] to come.
    (1) When [raw] is empty or all blanks the round only prompts and the
    loop goes on with the next line: no stage of the pipeline is invoked.
    (2) Otherwise (and when the stripped line is not a word that ends the
    loop) the round is the prompt followed by the turn on the stripped
    line, after which the loop goes on with the next line (or ends with an
    exception that [except Exception] does not catch); the rewriter is
    invoked with the stripped line; every call of the rewriter and of the
    analysis generator in the round carries the stripped line as the alert;
    when the answer of the rewriter is not JSON the enhanced query that is
    shown and searched for is the stripped line; and whenever the rewrite,
    the search and the listing of the indicators succeed, the analysis
    generator is called in the round, with the stripped line as its
    original alert. *)
Theorem C9_stripped_alert (env : Query.Env) (raw : string)
    (rest : list string) (t : Query.trace) :
  let query := Str.strip raw in
  (Str.all_space raw = true ->
   Query.loop env (raw :: rest) t
   = Query.loop env rest (t ++ [Query.Prompt]))
  /\ (Str.all_space raw = false ->
      Query.is_exit query = false ->
      exists events,
        let round :=
          t ++ Query.Prompt :: Query.PrintStep1 :: Query.CallRewriter query
            :: events in
        (Query.loop env (raw :: rest) t = Query.loop env rest round
         \/ exists e,
              is_Exception e = false
              /\ Query.loop env (raw :: rest) t = (Raise e, round))
        /\ Forall (about_alert query) events
        /\ (forall answer,
              Query.rewriter_invoke env query = Ok answer ->
              Query.json_loads env answer = Raise JSONDecodeError ->
              exists events',
                events = Query.PrintEnhancedQuery (PStr query)
                         :: Query.PrintStep2
                         :: Query.CallSearch (PStr query) 4 :: events')
        /\ (forall answer rewritten docs details,
              Query.rewriter_invoke env query = Ok answer ->
              Query.parse_rewrite env query answer = Ok rewritten ->
              Query.similarity_search env (fst rewritten) 4 = Ok docs ->
              Query.render_ioc_details (snd rewritten) = Ok details ->
              In (Query.CallAnalyst
                    (Query.mkAnalystArgs (Query.context_str docs) query
                       (snd rewritten) details))
                 events)).
Proof.
  cbv zeta. split.
  - intros Hblank. cbn [Query.loop]. unfold Query.iteration.
    rewrite run_assoc, run_emit. rewrite (strip_all_space raw Hblank).
    reflexivity.
  - intros Hblank Hexit. cbn [Query.loop]. unfold Query.iteration.
    rewrite run_assoc, run_emit, Hexit.
    assert (Htruthy : Py.truthy (PStr (Str.strip raw)) = true).
    { apply truthy_str. now apply strip_not_all_space. }
    rewrite Htruthy. cbn [negb]. rewrite run_assoc.
    set (guarded := try_except (Query.turn env (Str.strip raw)) is_Exception
                      (fun e => Query.emit (Query.PrintErrorDuringAnalysis e))).
    destruct (guarded_turn_events env (Str.strip raw) (t ++ [Query.Prompt]))
      as (events & E & Habout & Hfallback).
    fold guarded in E. rewrite <- app_assoc in E. cbn [app] in E.
    exists events. split; [|split; [exact Habout | split; [exact Hfallback|]]].
    + pose proof (guarded_result (Query.turn env (Str.strip raw))
                    (t ++ [Query.Prompt])) as Hr.
      fold guarded in Hr.
      destruct (guarded (t ++ [Query.Prompt])) as [r t'] eqn:Eg.
      cbn [fst snd] in E, Hr. subst t'.
      destruct Hr as [-> | (e & He & ->)].
      * left. unfold bind at 1. rewrite Eg. reflexivity.
      * right. exists e. split; [exact He|].
        unfold bind at 1. rewrite Eg. reflexivity.
    + intros answer rewritten docs details Hanswer Hparse Hsearch Hrender.
      destruct (turn_calls_analyst env (Str.strip raw) (t ++ [Query.Prompt])
                  answer rewritten docs details Hanswer Hparse Hsearch Hrender)
        as (before & after & Hturn).
      unfold guarded in E. rewrite guarded_trace, Hturn in E.
      destruct (guard_trace_extends
                  (fst (Query.turn env (Str.strip raw) (t ++ [Query.Prompt])))
                  ((t ++ [Query.Prompt]) ++ Query.PrintStep1
                     :: Query.CallRewriter (Str.strip raw)
                     :: before
                     ++ Query.CallAnalyst
                          (Query.mkAnalystArgs (Query.context_str docs)
                             (Str.strip raw) (snd rewritten) details)
                     :: after)) as [report Hreport].
      rewrite Hreport in E. rewrite <- !app_assoc in E. cbn [app] in E.
      apply app_inv_head in E. injection E as E.
      rewrite <- E. rewrite <- app_assoc. apply in_or_app. right. now left.
Qed.

(** C9 on a session of three lines: a line of blanks, an alert typed with
    blanks around it (the rewriter does not answer in JSON), and a word that
    ends the loop. *)
Lemma C9_stripped_alert_witness :
  Query.loop (Sample.query_env Sample.not_json)
    ["    "; "  port scan from 10.0.0.1  "; "q"] []
  = (Ok tt,
     [Query.Prompt; Query.Prompt; Query.PrintStep1;
      Query.CallRewriter "port scan from 10.0.0.1";
      Query.PrintEnhancedQuery (PStr "port scan from 10.0.0.1");
      Query.PrintStep2;
      Query.CallSearch (PStr "port scan from 10.0.0.1") 4;
      Query.PrintStep3;
      Query.CallAnalyst
        (Query.mkAnalystArgs (Query.context_str [Sample.doc_a; Sample.doc_b])
           "port scan from 10.0.0.1" (PDict [])
           ("- No IOCs extracted (clean query)" +:+ Str.nl));
      Query.PrintAnalysis "analysis"; Query.PrintSourcesHeader;
      Query.PrintSource 1 (PStr "Brute Force") (PStr "linux");
      Query.PrintSource 2 (PStr "OS Credential Dumping") (PStr "windows");
      Query.PrintSourcesEnd; Query.Prompt; Query.PrintShuttingDown])
  /\ exists events,
       Forall (about_alert "port scan from 10.0.0.1") events
       /\ In (Query.CallAnalyst
                (Query.mkAnalystArgs
                   (Query.context_str [Sample.doc_a; Sample.doc_b])
                   "port scan from 10.0.0.1" (PDict [])
                   ("- No IOCs extracted (clean query)" +:+ Str.nl)))
             events.
Proof.
  split.
  - destruct (C9_stripped_alert (Sample.query_env Sample.not_json) "    "
                ["  port scan from 10.0.0.1  "; "q"] []) as [Hblank _].
    rewrite (Hblank eq_refl). vm_compute. reflexivity.
  - destruct (C9_stripped_alert (Sample.query_env Sample.not_json)
                "  port scan from 10.0.0.1  " ["q"] []) as [_ Hround].
    destruct (Hround eq_refl eq_refl)
      as (events & _ & Habout & _ & Hanalyst).
    exists events. split; [exact Habout|].
    apply (Hanalyst Sample.not_json (PStr "port scan from 10.0.0.1", PDict [])
             [Sample.doc_a; Sample.doc_b]
             ("- No IOCs extracted (clean query)" +:+ Str.nl));
      vm_compute; reflexivity.
Defined.

Lemma render_not_mapping iocs :
  (forall m, iocs <> PDict m) ->
  Query.render_ioc_details iocs = Raise AttributeError.
Proof.
  intros H. destruct iocs; try reflexivity. exfalso. eapply H. reflexivity.
Qed.

Lemma stage_calls_app t u :
  stage_calls (t ++ u) = stage_calls t ++ stage_calls u.
Proof. apply List.filter_app. Qed.

Lemma stage_calls_sources l : stage_calls (map source_event l) = [].
Proof. induction l as [|x l IH]; [reflexivity | exact IH]. Qed.

Lemma stage_calls_iocs x (b : bool) i :
  stage_calls (x :: (if b then [Query.PrintExtractedIocs i] else []))
  = stage_calls [x].
Proof.
  destruct b; unfold stage_calls; cbn [List.filter is_stage_call];
    destruct (is_stage_call x); reflexivity.
Qed.

(** X21.  When the rewriter answers an object whose [iocs] is not a
    mapping, the knowledge base is still searched, and the turn then ends in
    an AttributeError at the first [iocs.get]: the analyst is not called
    and no result is printed. *)
Theorem non_mapping_indicators_stop_before_analyst (env : Query.Env)
    (query answer : string) (d : list (string * pyval))
    (docs : list Document) (t : Query.trace) :
  let enhanced_query := default (PStr query) (Py.lookup "enhanced_query" d) in
  let iocs := default (PDict []) (Py.lookup "iocs" d) in
  Query.rewriter_invoke env query = Ok answer ->
  Query.json_loads env answer = Ok (PDict d) ->
  (forall m, iocs <> PDict m) ->
  Query.similarity_search env enhanced_query 4 = Ok docs ->
  Query.turn env query t
  = (Raise AttributeError,
     t ++ [Query.PrintStep1; Query.CallRewriter query;
           Query.PrintEnhancedQuery enhanced_query]
       ++ (if Py.truthy iocs then [Query.PrintExtractedIocs iocs] else [])
       ++ [Query.PrintStep2; Query.CallSearch enhanced_query 4;
           Query.PrintStep3]).
Proof.
  cbv zeta. intros Hanswer Hjson Hiocs Hsearch.
  rewrite turn_run, rewrite_query_run. cbv zeta.
  rewrite Hanswer, (parse_rewrite_object _ _ _ _ Hjson). cbn [fst snd].
  rewrite Hsearch, (render_not_mapping _ Hiocs).
  now rewrite <- !app_assoc.
Qed.

(** X21 on the same answer. *)
Lemma non_mapping_indicators_stop_before_analyst_witness :
  Query.turn (Sample.query_env_objects Sample.json_object_list)
    "scan from 10.0.0.1" []
  = (Raise AttributeError,
     [Query.PrintStep1; Query.CallRewriter "scan from 10.0.0.1";
      Query.PrintEnhancedQuery (PStr "scan from 10.0.0.1");
      Query.PrintExtractedIocs (PList [PStr "10.0.0.1"]);
      Query.PrintStep2; Query.CallSearch (PStr "scan from 10.0.0.1") 4;
      Query.PrintStep3]).
Proof.
  assert (H : Query.json_loads
                (Sample.query_env_objects Sample.json_object_list)
                Sample.json_object_list
              = Ok (PDict [("iocs", PList [PStr "10.0.0.1"])]))
    by (vm_compute; reflexivity).
  assert (Hsearch : Query.similarity_search
                      (Sample.query_env_objects Sample.json_object_list)
                      (PStr "scan from 10.0.0.1") 4
                    = Ok [Sample.doc_a; Sample.doc_b])
    by (vm_compute; reflexivity).
  apply (non_mapping_indicators_stop_before_analyst
           (Sample.query_env_objects Sample.json_object_list)
           "scan from 10.0.0.1" Sample.json_object_list
           [("iocs", PList [PStr "10.0.0.1"])] [Sample.doc_a; Sample.doc_b] []
           eq_refl H).
  - intros m. discriminate.
  - exact Hsearch.
Defined.

(** X22.  A turn in which every stage answers: the search is given the
    enhanced query with k = 4; the analyst is given the context built from
    the retrieved documents, the alert of the turn (not the enhanced query),
    the indicators and their listing; the analysis and the sources are
    printed, in this order. *)
Theorem turn_end_to_end (env : Query.Env) (query answer analysis : string)
    (enhanced_query : pyval) (m : list (string * pyval))
    (docs : list Document) (t : Query.trace) :
  let args :=
    Query.mkAnalystArgs (Query.context_str docs) query (PDict m)
      (Str.concat (Shape.listing m)) in
  Query.rewriter_invoke env query = Ok answer ->
  Query.parse_rewrite env query answer = Ok (enhanced_query, PDict m) ->
  Query.similarity_search env enhanced_query 4 = Ok docs ->
  Query.llm_invoke env args = Ok analysis ->
  Query.turn env query t
  = (Ok tt,
     t ++ [Query.PrintStep1; Query.CallRewriter query;
           Query.PrintEnhancedQuery enhanced_query]
       ++ (if Py.truthy (PDict m) then [Query.PrintExtractedIocs (PDict m)]
           else [])
       ++ [Query.PrintStep2; Query.CallSearch enhanced_query 4;
           Query.PrintStep3; Query.CallAnalyst args;
           Query.PrintAnalysis analysis; Query.PrintSourcesHeader]
       ++ map source_event (Query.enumerate 1 docs)
       ++ [Query.PrintSourcesEnd]).
Proof.
  cbv zeta. intros Hanswer Hparse Hsearch Hllm.
  rewrite turn_run, rewrite_query_run. cbv zeta.
  rewrite Hanswer, Hparse. cbn [fst snd].
  rewrite Hsearch, render_ioc_details_listing, Hllm.
  now rewrite <- !app_assoc.
Qed.

(** X22 on an answer as the prompt asks for. *)
Lemma turn_end_to_end_witness :
  Query.turn (Sample.query_env_objects Sample.json_object)
    "ET SCAN SSH 10.0.0.1 TCP" []
  = (Ok tt,
     [Query.PrintStep1; Query.CallRewriter "ET SCAN SSH 10.0.0.1 TCP";
      Query.PrintEnhancedQuery (PStr "ssh brute force");
      Query.PrintExtractedIocs (PDict [("protocol", PStr "TCP")]);
      Query.PrintStep2; Query.CallSearch (PStr "ssh brute force") 4;
      Query.PrintStep3;
      Query.CallAnalyst
        (Query.mkAnalystArgs
           (Query.context_str [Sample.doc_a; Sample.doc_b])
           "ET SCAN SSH 10.0.0.1 TCP" (PDict [("protocol", PStr "TCP")])
           (Str.concat (Shape.listing [("protocol", PStr "TCP")])));
      Query.PrintAnalysis "analysis"; Query.PrintSourcesHeader;
      Query.PrintSource 1 (PStr "Brute Force") (PStr "linux");
      Query.PrintSource 2 (PStr "OS Credential Dumping") (PStr "windows");
      Query.PrintSourcesEnd]).
Proof.
  assert (H : Query.parse_rewrite (Sample.query_env_objects Sample.json_object)
                "ET SCAN SSH 10.0.0.1 TCP" Sample.json_object
              = Ok (PStr "ssh brute force", PDict [("protocol", PStr "TCP")]))
    by (vm_compute; reflexivity).
  assert (Hsearch : Query.similarity_search
                      (Sample.query_env_objects Sample.json_object)
                      (PStr "ssh brute force") 4
                    = Ok [Sample.doc_a; Sample.doc_b])
    by (vm_compute; reflexivity).
  exact (turn_end_to_end (Sample.query_env_objects Sample.json_object)
           "ET SCAN SSH 10.0.0.1 TCP" Sample.json_object "analysis"
           (PStr "ssh brute force") [("protocol", PStr "TCP")]
           [Sample.doc_a; Sample.doc_b] [] eq_refl H Hsearch eq_refl).
Defined.

(** X23.  In every turn each stage is called at most once and in the
    order rewriter, search, analyst: the stage calls of a turn are a
    non-empty prefix of that sequence, the rewriter with the alert and the
    search with k = 4. *)
Theorem turn_stages_in_order (env : Query.Env) (query : string)
    (t : Query.trace) :
  exists added,
    snd (Query.turn env query t) = t ++ added
    /\ (stage_calls added = [Query.CallRewriter query]
        \/ (exists enhanced_query,
              stage_calls added
              = [Query.CallRewriter query; Query.CallSearch enhanced_query 4])
        \/ (exists enhanced_query args,
              stage_calls added
              = [Query.CallRewriter query; Query.CallSearch enhanced_query 4;
                 Query.CallAnalyst args])).
Proof.
  rewrite turn_run, rewrite_query_run. cbv zeta.
  destruct (Query.rewriter_invoke env query) as [answer|e];
    [|eexists; split; [reflexivity | left; reflexivity]].
  destruct (Query.parse_rewrite env query answer) as [rw|e];
    [|eexists; split; [reflexivity | left; reflexivity]].
  destruct (Query.similarity_search env (fst rw) 4) as [docs|e].
  2: { eexists. split; [rewrite <- !app_assoc; reflexivity|].
       right. left. exists (fst rw).
       rewrite !stage_calls_app. cbn [app].
       rewrite stage_calls_iocs. reflexivity. }
  destruct (Query.render_ioc_details (snd rw)) as [details|e].
  2: { eexists. split; [rewrite <- !app_assoc; reflexivity|].
       right. left. exists (fst rw).
       rewrite !stage_calls_app. cbn [app].
       rewrite stage_calls_iocs. reflexivity. }
  destruct (Query.llm_invoke env _) as [analysis|e].
  - eexists. split; [rewrite <- !app_assoc; reflexivity|].
    right. right. exists (fst rw). eexists.
    rewrite !stage_calls_app. cbn [app].
    rewrite stage_calls_iocs, stage_calls_sources. reflexivity.
  - eexists. split; [rewrite <- !app_assoc; reflexivity|].
    right. right. exists (fst rw). eexists.
    rewrite !stage_calls_app. cbn [app].
    rewrite stage_calls_iocs. reflexivity.
Qed.

(** X24.  A turn that raises an Exception is reported in one line and
    the loop goes on with the next line; an exception that is not an
    Exception ends the loop without a report. *)
Theorem failed_turn_is_reported (env : Query.Env) (raw : string)
    (rest : list string) (t : Query.trace) (e : exn) :
  let query := Str.strip raw in
  let run := Query.turn env query (t ++ [Query.Prompt]) in
  Query.is_exit query = false ->
  query <> "" ->
  fst run = Raise e ->
  Query.loop env (raw :: rest) t
  = if is_Exception e
    then Query.loop env rest (snd run ++ [Query.PrintErrorDuringAnalysis e])
    else (Raise e, snd run).
Proof.
  cbv zeta. intros Hexit Hquery Hrun.
  cbn [Query.loop]. unfold Query.iteration.
  rewrite run_assoc, run_emit, Hexit.
  rewrite (proj2 (truthy_str _) Hquery). cbn [negb].
  rewrite run_assoc. unfold bind at 1, try_except.
  destruct (Query.turn env (Str.strip raw) (t ++ [Query.Prompt]))
    as [r t'].
  cbn [fst snd] in *. subst r.
  destruct (is_Exception e); reflexivity.
Qed.

(** X24 on a session of two lines, the rewriter answering [[]]. *)
Lemma failed_turn_is_reported_witness :
  Query.loop (Sample.query_env Sample.json_array) [" ssh brute force "; "q"] []
  = (Ok tt,
     [Query.Prompt; Query.PrintStep1; Query.CallRewriter "ssh brute force";
      Query.PrintErrorDuringAnalysis AttributeError;
      Query.Prompt; Query.PrintShuttingDown]).
Proof.
  assert (Hexit : Query.is_exit (Str.strip " ssh brute force ") = false)
    by (vm_compute; reflexivity).
  assert (Hquery : Str.strip " ssh brute force " <> "")
    by (vm_compute; discriminate).
  assert (Hrun : fst (Query.turn (Sample.query_env Sample.json_array)
                        (Str.strip " ssh brute force ") ([] ++ [Query.Prompt]))
                 = Raise AttributeError)
    by (vm_compute; reflexivity).
  rewrite (failed_turn_is_reported (Sample.query_env Sample.json_array)
             " ssh brute force " ["q"] [] AttributeError Hexit Hquery Hrun).
  vm_compute. reflexivity.
Defined.

Lemma take_app a rest : Str.take (String.length a) (a +:+ rest) = a.
Proof.
  induction a as [|c a IH]; cbn [String.length].
  - destruct rest; reflexivity.
  - rewrite append_cons. cbn [Str.take]. now rewrite IH.
Qed.

Lemma substring_skip a n s :
  String.substring (String.length a) n (a +:+ s) = String.substring 0 n s.
Proof.
  induction a as [|c a IH]; [reflexivity|].
  rewrite append_cons. cbn [String.length String.substring]. exact IH.
Qed.

Lemma substring_all s : String.substring 0 (String.length s) s = s.
Proof.
  induction s as [|c s IH]; [reflexivity|].
  cbn [String.length String.substring]. now rewrite IH.
Qed.

Lemma length_append a b :
  String.length (a +:+ b) = (String.length a + String.length b)%nat.
Proof.
  induction a as [|c a IH]; [reflexivity|].
  rewrite append_cons. cbn [String.length]. now rewrite IH.
Qed.

(** X25.  Of a key of eight or more characters the startup line shows
    the first four and the last four characters and ten stars, whatever
    and however many characters are in between. *)
Theorem mask_hides_the_middle (first middle last : string) :
  String.length first = 4%nat ->
  String.length last = 4%nat ->
  Query.mask (first +:+ middle +:+ last)
  = first +:+ "**********" +:+ last.
Proof.
  intros Hfirst Hlast. unfold Query.mask.
  assert (Htake : Str.take 4%nat (first +:+ middle +:+ last) = first)
    by (rewrite <- Hfirst; apply take_app).
  assert (Hsub : String.substring
                   (String.length (first +:+ middle +:+ last) - 4)%nat 4%nat
                   (first +:+ middle +:+ last) = last).
  { replace (String.length (first +:+ middle +:+ last) - 4)%nat
      with (String.length (first +:+ middle))
      by (rewrite !length_append; lia).
    rewrite <- (append_assoc first middle last), substring_skip, <- Hlast.
    apply substring_all. }
  now rewrite Htake, Hsub.
Qed.

(** X25 on the sample key. *)
Lemma mask_hides_the_middle_witness :
  Query.mask "gsk_0123456789" = "gsk_**********6789".
Proof.
  exact (mask_hides_the_middle "gsk_" "012345" "6789" eq_refl eq_refl).
Defined.

Lemma substring_whole n s :
  (String.length s <= n)%nat -> String.substring 0 n s = s.
Proof.
  revert s; induction n as [|n IH]; intros [|c s]; cbn [String.length];
    intros H; try reflexivity; try lia.
  cbn [String.substring]. rewrite IH; [reflexivity | lia].
Qed.

(** X26.  A key of at most four characters is not hidden by the
    startup line: it is printed whole, before and after the ten stars. *)
Theorem mask_shows_short_key (api_key : string) :
  (String.length api_key <= 4)%nat ->
  Query.mask api_key = api_key +:+ "**********" +:+ api_key.
Proof.
  intros H. unfold Query.mask.
  replace (String.length api_key - 4)%nat with 0%nat by lia.
  now rewrite (take_all 4 api_key H), (substring_whole 4 api_key H).
Qed.

(** X26 on a key of three characters. *)
Lemma mask_shows_short_key_witness :
  Query.mask "abc" = "abc**********abc".
Proof.
  apply (mask_shows_short_key "abc"). cbn [String.length]. lia.
Defined.
